(** * MyAiPathways: the HVAC part finder (src/main.py)

    A shallow embedding of the Cloud Function in [src/main.py]: the
    module-level initialisation of the Pinecone client, the index and the
    sentence-transformer model, the matcher [find_matching_parts] and the
    HTTP entry point [query_part_finder].

    The program is Python: values are dynamically typed, statements may
    raise, and the module keeps three global names.  The embedding keeps
    all three aspects:
    - request bodies and response bodies are values of [json], the data
      [request.get_json] produces and [jsonify] consumes;
    - a computation is a function from a [World] (the module globals and
      the trace of calls to collaborators) to an [outcome] and a new world;
    - the collaborators (os.environ, Pinecone, SentenceTransformer, the
      builtin [round]) are not code of this repository: handles carry their
      methods as functions, floats are an interface. *)

From Stdlib Require Import ZArith QArith Qround Qpower String List Lia.
From stdpp Require Import base option list strings gmap.

Local Open Scope Z_scope.
Local Open Scope string_scope.
Local Open Scope list_scope.

(** ** Python floats

    The code touches floats only through [round(score, 4)] and through the
    truth value of a request body; comparison is needed to speak about the
    order of scores. *)

Class PyFloat := {
  float : Type;
  float_truth : float → bool;        (* bool(x), i.e. x != 0.0 *)
  round : float → Z → float;         (* the builtin round(x, ndigits) *)
  float_le : float → float → Prop;   (* x <= y *)
}.

(** ** JSON values, as Python sees them *)

Section Json.
Context `{PyFloat}.

#[warnings="-register-all"] Inductive json : Type :=
  | JNull                                (* None *)
  | JBool (b : bool)
  | JInt (z : Z)
  | JFloat (x : float)
  | JStr (s : string)
  | JList (l : list json)
  | JDict (d : gmap string json).

(** [bool(x)] *)
Definition py_truth (x : json) : bool :=
  match x with
  | JNull => false
  | JBool b => b
  | JInt z => negb (Z.eqb z 0)
  | JFloat x => float_truth x
  | JStr s => negb (String.eqb s "")
  | JList l => negb (Nat.eqb (length l) 0)
  | JDict d => negb (Nat.eqb (size d) 0)
  end.

(** [type(x).__name__], as it appears in the messages of TypeError *)
Definition py_type_name (x : json) : string :=
  match x with
  | JNull => "NoneType"
  | JBool _ => "bool"
  | JInt _ => "int"
  | JFloat _ => "float"
  | JStr _ => "str"
  | JList _ => "list"
  | JDict _ => "dict"
  end.

(** [needle in hay] on two strings: the substring test *)
Fixpoint str_contains (needle hay : string) : bool :=
  String.prefix needle hay ||
  match hay with
  | EmptyString => false
  | String _ rest => str_contains needle rest
  end.

(** [x == key] for a string [key]: only a string equals a string *)
Definition py_eq_str (key : string) (x : json) : bool :=
  match x with
  | JStr s => String.eqb s key
  | _ => false
  end.

End Json.

(** ** Exceptions and outcomes

    Every exception of the model is an instance of [Exception]: it is what
    [except Exception] catches.  [exn_str] is [str(e)]. *)

Record exn := Exn { exn_class : string; exn_str : string }.

Inductive outcome (A : Type) : Type :=
  | Return (a : A)
  | Raise (e : exn).
Arguments Return {A} a.
Arguments Raise {A} e.

Definition TypeError (msg : string) : exn := Exn "TypeError" msg.
Definition ValueError (msg : string) : exn := Exn "ValueError" msg.
Definition NameError (name : string) : exn :=
  Exn "NameError" ("name '" +:+ name +:+ "' is not defined").
Definition AttributeError (ty attr : string) : exn :=
  Exn "AttributeError" ("'" +:+ ty +:+ "' object has no attribute '" +:+ attr +:+ "'").
(** [str(KeyError(k))] is [repr(k)] *)
Definition KeyError (key : string) : exn := Exn "KeyError" ("'" +:+ key +:+ "'").

Section Operators.
Context `{PyFloat}.

(** [key in x] *)
Definition py_contains (key : string) (x : json) : outcome bool :=
  match x with
  | JDict d => Return (bool_decide (is_Some (d !! key)))
  | JList l => Return (existsb (py_eq_str key) l)
  | JStr s => Return (str_contains key s)
  | _ => Raise (TypeError ("argument of type '" +:+ py_type_name x +:+ "' is not iterable"))
  end.

(** [x[key]] for a string [key] *)
Definition py_getitem (x : json) (key : string) : outcome json :=
  match x with
  | JDict d =>
      match d !! key with
      | Some v => Return v
      | None => Raise (KeyError key)
      end
  | JList _ => Raise (TypeError "list indices must be integers or slices, not str")
  | JStr _ => Raise (TypeError "string indices must be integers, not 'str'")
  | _ => Raise (TypeError ("'" +:+ py_type_name x +:+ "' object is not subscriptable"))
  end.

(** [x.get(key, default)] *)
Definition py_get (x : json) (key : string) (dflt : json) : outcome json :=
  match x with
  | JDict d => Return (default dflt (d !! key))
  | _ => Raise (AttributeError (py_type_name x) "get")
  end.

End Operators.

(** a module-level name is not yet assigned, holds [None], or holds an
    object (objects of the three classes are true in a boolean context) *)
Inductive binding (A : Type) : Type :=
  | Unbound
  | PyNone
  | Obj (a : A).
Arguments Unbound {A}.
Arguments PyNone {A}.
Arguments Obj {A} a.

(** ** Collaborators

    The objects the program obtains from its libraries.  Each carries the
    one method the program calls on it; a method either returns or raises.
    Within one execution every method is called at most once, so a function
    of the arguments describes the call. *)

Section Collaborators.
Context `{PyFloat}.

(** one element of [query_results['matches']]: [match['id']],
    [match['score']] and [match['metadata']] *)
Record ScoredVector := {
  match_id : string;
  match_score : float;
  match_metadata : gmap string json;
}.

Record QueryResponse := { matches : list ScoredVector }.

(** [embedding_model.encode([text], convert_to_numpy=True).tolist()[0]] *)
Record SentenceTransformer := {
  encode : json → outcome (list float);
}.

(** [index.query(vector=..., top_k=..., include_metadata=...)] *)
Record Index := {
  query : list float → json → bool → outcome QueryResponse;
}.

(** [pc.Index(name)] *)
Record Pinecone := {
  pc_Index : string → outcome Index;
}.

(** what the process finds when it starts: [os.environ] and the two
    constructors [Pinecone(api_key=...)] and [SentenceTransformer(name)] *)
Record Environment := {
  os_environ : gmap string string;
  new_Pinecone : string → outcome Pinecone;
  new_SentenceTransformer : string → outcome SentenceTransformer;
}.

(** ** Module globals and the world *)

Record ServiceState := {
  pc : binding Pinecone;
  index : binding Index;
  embedding_model : binding SentenceTransformer;
}.

Inductive event : Type :=
  | EnvironGet (name : string)
  | NewPinecone (api_key : string)
  | OpenIndex (name : string)
  | LoadModel (name : string)
  | Stdout (line : string)
  | GetJson
  | Encode (text : json)
  | Query (vector : list float) (top_k : json) (include_metadata : bool).

Record World := {
  globals : ServiceState;
  trace : list event;
}.

(** ** Computations: state, trace and exceptions *)

Definition M (A : Type) : Type := World → outcome A * World.

Definition ret {A} (a : A) : M A := λ w, (Return a, w).

Definition raise {A} (e : exn) : M A := λ w, (Raise e, w).

Definition bind {A B} (m : M A) (k : A → M B) : M B :=
  λ w, match m w with
       | (Return a, w') => k a w'
       | (Raise e, w') => (Raise e, w')
       end.

(** [try: body except Exception as e: handler e] *)
Definition try_except {A} (body : M A) (handler : exn → M A) : M A :=
  λ w, match body w with
       | (Return a, w') => (Return a, w')
       | (Raise e, w') => handler e w'
       end.

(** a call that leaves the process: recorded, then its outcome *)
Definition external {A} (ev : event) (r : outcome A) : M A :=
  λ w, (r, {| globals := globals w; trace := trace w ++ [ev] |}).

(** an operator of the language that may raise *)
Definition lift {A} (r : outcome A) : M A := λ w, (r, w).

(** reading a global name *)
Definition load {A} (name : string) (get : ServiceState → binding A) : M (option A) :=
  λ w, match get (globals w) with
       | Unbound => (Raise (NameError name), w)
       | PyNone => (Return None, w)
       | Obj a => (Return (Some a), w)
       end.

(** assigning a global name *)
Definition store (update : ServiceState → ServiceState) : M unit :=
  λ w, (Return tt, {| globals := update (globals w); trace := trace w |}).

Definition set_pc (v : binding Pinecone) (s : ServiceState) : ServiceState :=
  {| pc := v; index := index s; embedding_model := embedding_model s |}.
Definition set_index (v : binding Index) (s : ServiceState) : ServiceState :=
  {| pc := pc s; index := v; embedding_model := embedding_model s |}.
Definition set_embedding_model (v : binding SentenceTransformer) (s : ServiceState)
  : ServiceState :=
  {| pc := pc s; index := index s; embedding_model := v |}.

(** [obj.attr] on a value that may be [None] *)
Definition attribute {A} (o : option A) (attr : string) : M A :=
  match o with
  | Some a => ret a
  | None => raise (AttributeError "NoneType" attr)
  end.

(** [not x] on a handle *)
Definition py_not {A} (o : option A) : bool :=
  match o with Some _ => false | None => true end.

(** [a or b] on conditions: [b] is evaluated only when [a] is false *)
Definition py_or (a b : M bool) : M bool :=
  bind a (λ x, if x then ret true else b).

Definition print (line : string) : M unit := external (Stdout line) (Return tt).

End Collaborators.

(** stdpp's monad notation ([x ← m; k] and [m ;; k]) for [M] *)
#[global] Instance M_ret `{PyFloat} : MRet M := @ret _.
#[global] Instance M_bind `{PyFloat} : MBind M := λ A B k m, bind m k.

(** ** The program: src/main.py *)

Section Program.
Context `{PyFloat}.

(** *** Configuration *)

Definition EMBEDDING_MODEL_NAME : string := "all-MiniLM-L6-v2".
Definition VECTOR_DIMENSION : Z := 384.
Definition INDEX_NAME : string := "kelleher-hvac-parts-free".
Definition PINECONE_REGION : string := "us-east-1".

(** *** Global initialisation (lines 16-34)

    Runs once, on a world whose three names are unbound.  [os.environ.get]
    returns [None] for a missing variable; [not KEY] also rejects the empty
    string. *)

Definition os_environ_get (env : Environment) (name : string) : M (option string) :=
  external (EnvironGet name) (Return (os_environ env !! name)).

Definition initialize (env : Environment) : M unit :=
  try_except
    (PINECECONE_KEY ← os_environ_get env "PINECONE_KEY";
     match PINECECONE_KEY with
     | None => raise (ValueError "PINECONE_KEY environment variable not set.")
     | Some key =>
         if String.eqb key ""
         then raise (ValueError "PINECONE_KEY environment variable not set.")
         else
           p ← external (NewPinecone key) (new_Pinecone env key);
           store (set_pc (Obj p));;
           ix ← external (OpenIndex INDEX_NAME) (pc_Index p INDEX_NAME);
           store (set_index (Obj ix));;
           (* Load the Sentence Transformer model globally *)
           m ← external (LoadModel EMBEDDING_MODEL_NAME)
                 (new_SentenceTransformer env EMBEDDING_MODEL_NAME);
           store (set_embedding_model (Obj m));;
           print "Initialization complete: Pinecone and SentenceTransformer loaded."
     end)
    (λ e,
       (* Log initialization errors to Cloud Logging *)
       print ("FATAL INITIALIZATION ERROR: " +:+ exn_str e);;
       store (set_pc PyNone);;
       store (set_embedding_model PyNone)).

(** the world in which the module starts to execute *)
Definition fresh : World :=
  {| globals := {| pc := Unbound; index := Unbound; embedding_model := Unbound |};
     trace := [] |}.

(** the process-wide state once the module has been imported *)
Definition boot (env : Environment) : World := snd (initialize env fresh).

(** *** Core logic (lines 37-65) *)

(** one iteration of the loop of lines 58-63: the dictionary appended to
    [matches] *)
Definition match_result (m : ScoredVector) : outcome json :=
  match match_metadata m !! "description" with
  | Some description =>
      Return (JDict {[ "part_number" := JStr (match_id m);
                       "description" := description;
                       "score" := JFloat (round (match_score m) 4) ]})
  | None => Raise (KeyError "description")
  end.

(** [for match in ms: matches.append(...)] *)
Fixpoint process_matches (ms : list ScoredVector) (acc : list json) : outcome (list json) :=
  match ms with
  | [] => Return acc
  | m :: rest =>
      match match_result m with
      | Return r => process_matches rest (acc ++ [r])
      | Raise e => Raise e
      end
  end.

Definition find_matching_parts (technician_description : json) (top_k : json)
  : M (string * list json) :=
  degraded ← py_or (em ← load "embedding_model" embedding_model; mret (py_not em))
                   (p ← load "pc" pc; mret (py_not p));
  if (degraded : bool) then mret ("Service not initialized.", [])
  else
    (* 1. Query Embedding *)
    em ← load "embedding_model" embedding_model;
    model ← attribute em "encode";
    query_vector ← external (Encode technician_description)
                     (encode model technician_description);
    (* 2. Vector DB Query *)
    ix ← load "index" index;
    idx ← attribute ix "query";
    query_results ← external (Query query_vector top_k true)
                      (query idx query_vector top_k true);
    (* 3. Process matches *)
    matches ← lift (process_matches (matches query_results) []);
    mret ("Success", matches).

(** the default of the parameter [top_k] *)
Definition find_matching_parts_default_top_k : json := JInt 3.

(** *** HTTP entry point (lines 69-106) *)

(** [request.get_json(silent=True)]: the parsed body, [None] when there is
    no body or it does not parse *)
Record Request := { body : option json }.

Definition get_json (request : Request) : M json :=
  external GetJson (Return (default JNull (body request))).

(** [jsonify(data)]: a response object with its own headers *)
Record Response := {
  data : json;
  response_headers : list (string * string);
}.

Definition jsonify (d : json) : Response :=
  {| data := d; response_headers := [("Content-Type", "application/json")] |}.

(** what a Flask view may return: [(response, status)] or
    [(response, status, headers)] *)
Inductive view_result : Type :=
  | BodyStatus (r : Response) (status : Z)
  | BodyStatusHeaders (r : Response) (status : Z) (headers : list (string * string)).

Definition query_part_finder (request : Request) : M view_result :=
  (* Set CORS headers *)
  let headers := [("Access-Control-Allow-Origin", "*")] in
  (* Check if initialization failed *)
  failed ← py_or (em ← load "embedding_model" embedding_model; mret (py_not em))
                 (p ← load "pc" pc; mret (py_not p));
  if (failed : bool)
  then mret (BodyStatus
         (jsonify (JDict {[ "error" := JStr "Service initialization failed. Check server logs." ]}))
         500)
  else
    (* 1. Parse Request Data *)
    request_json ← get_json request;
    missing ← py_or (mret (negb (py_truth request_json)))
                    (c ← lift (py_contains "description" request_json); mret (negb c));
    if (missing : bool)
    then mret (BodyStatus
           (jsonify (JDict {[ "error" := JStr "Missing 'description' in request body." ]}))
           400)
    else
      description ← lift (py_getitem request_json "description");
      top_k ← lift (py_get request_json "top_k" (JInt 3));
      (* 2. Run Core Logic *)
      try_except
        ('(status, matches) ← find_matching_parts description top_k;
         (* 3. Return JSON Response *)
         let response_data :=
           JDict {[ "query_description" := description;
                    "status" := JStr status;
                    "matches" := JList matches ]} in
         mret (BodyStatus (jsonify response_data) 200))
        (λ e,
           mret (BodyStatus
             (jsonify (JDict {[ "error" :=
                JStr ("An unexpected search error occurred: " +:+ exn_str e) ]}))
             500)).

(** the pieces of the HTTP response Flask builds from the view's result:
    with the two-element form the headers are those of the response object,
    the three-element form adds its own *)
Definition http_status (v : view_result) : Z :=
  match v with
  | BodyStatus _ status => status
  | BodyStatusHeaders _ status _ => status
  end.

Definition http_body (v : view_result) : json :=
  match v with
  | BodyStatus r _ => data r
  | BodyStatusHeaders r _ _ => data r
  end.

Definition http_headers (v : view_result) : list (string * string) :=
  match v with
  | BodyStatus r _ => response_headers r
  | BodyStatusHeaders r _ headers => response_headers r ++ headers
  end.

(** the value of a header, if the response carries it *)
Fixpoint header (name : string) (hs : list (string * string)) : option string :=
  match hs with
  | [] => None
  | (n, v) :: rest => if String.eqb n name then Some v else header name rest
  end.

End Program.

(** ** A concrete instance

    Exact rational scores with round-half-to-even, and a small catalogue
    behind stub collaborators: the model can be run on it. *)

Module Stub.

Definition round_half_even (q : Q) : Z :=
  let f := Qfloor q in
  match (2 * (Qnum q - f * Zpos (Qden q)) ?= Zpos (Qden q))%Z with
  | Lt => f
  | Gt => f + 1
  | Eq => if Z.even f then f else f + 1
  end.

Definition pow10 (n : Z) : Q := Qpower (10 # 1) n.

Definition Q_round (q : Q) (ndigits : Z) : Q :=
  Qred (Qdiv (inject_Z (round_half_even (Qmult q (pow10 ndigits)))) (pow10 ndigits)).

#[global] Instance Q_float : PyFloat := {|
  float := Q;
  float_truth q := negb (Qeq_bool q (0 # 1));
  round := Q_round;
  float_le := Qle;
|}.

Definition part (id description : string) (score : Q) : ScoredVector :=
  {| match_id := id;
     match_score := score;
     match_metadata := {[ "description" := JStr description ]} |}.

Definition catalogue : list ScoredVector :=
  [ part "BM-1042" "Blower motor 1/2 HP" (912345 # 1000000);
    part "BM-2210" "Blower motor 1/3 HP" (87125 # 100000);
    part "CP-0007" "Run capacitor 45/5 MFD" (5 # 10);
    part "IG-3301" "Hot surface igniter" (123449 # 1000000) ].

(** an index that honours an integer [top_k] and rejects anything else *)
Definition stub_index : Index :=
  {| query := λ _ top_k _,
       match top_k with
       | JInt n => if (0 <? n)%Z
                   then Return {| matches := take (Z.to_nat n) catalogue |}
                   else Raise (Exn "PineconeApiException" "top_k must be a positive integer")
       | _ => Raise (Exn "PineconeApiException" "top_k must be a positive integer")
       end |}.

Definition stub_model : SentenceTransformer :=
  {| encode := λ text,
       match text with
       | JStr _ => Return [1 # 10; 2 # 10; 3 # 10]
       | _ => Raise (TypeError "expected a string")
       end |}.

Definition stub_pc : Pinecone := {| pc_Index := λ _, Return stub_index |}.

Definition good_env : Environment :=
  {| os_environ := {[ "PINECONE_KEY" := "secret" ]};
     new_Pinecone := λ _, Return stub_pc;
     new_SentenceTransformer := λ _, Return stub_model |}.

(** the secret is not configured *)
Definition no_key_env : Environment :=
  {| os_environ := ∅;
     new_Pinecone := λ _, Return stub_pc;
     new_SentenceTransformer := λ _, Return stub_model |}.

(** the client and the index are fine, loading the model fails *)
Definition no_model_env : Environment :=
  {| os_environ := {[ "PINECONE_KEY" := "secret" ]};
     new_Pinecone := λ _, Return stub_pc;
     new_SentenceTransformer := λ _, Raise (Exn "OSError" "model not found") |}.

Definition healthy_state : ServiceState :=
  {| pc := Obj stub_pc; index := Obj stub_index; embedding_model := Obj stub_model |}.

Definition healthy_world : World := {| globals := healthy_state; trace := [] |}.

(** requests and worlds to run the model on *)

(** {"description": "blower motor", "top_k": 2} *)
Definition blower_request : Request :=
  {| body := Some (JDict {[ "description" := JStr "blower motor"; "top_k" := JInt 2 ]}) |}.

(** {"description": "x"} *)
Definition default_request : Request :=
  {| body := Some (JDict {[ "description" := JStr "x" ]}) |}.

(** {"description": "x", "top_k": -1} *)
Definition negative_request : Request :=
  {| body := Some (JDict {[ "description" := JStr "x"; "top_k" := JInt (-1) ]}) |}.

(** {"description": 7}: the stub model refuses to embed a number *)
Definition numeric_description_request : Request :=
  {| body := Some (JDict {[ "description" := JInt 7 ]}) |}.

(** {} *)
Definition empty_request : Request := {| body := Some (JDict ∅) |}.

(** ["description"] *)
Definition list_request : Request := {| body := Some (JList [JStr "description"]) |}.

(** 5 *)
Definition number_request : Request := {| body := Some (JInt 5) |}.

(** more worlds: each step of the initialisation can fail, and the index
    may answer with a match that has no 'description' *)

(** the secret is set to the empty string *)
Definition empty_key_env : Environment :=
  {| os_environ := {[ "PINECONE_KEY" := "" ]};
     new_Pinecone := λ _, Return stub_pc;
     new_SentenceTransformer := λ _, Return stub_model |}.

(** the client cannot be created *)
Definition no_client_env : Environment :=
  {| os_environ := {[ "PINECONE_KEY" := "secret" ]};
     new_Pinecone := λ _, Raise (Exn "PineconeConfigurationError" "invalid api key");
     new_SentenceTransformer := λ _, Return stub_model |}.

(** the client is created, the index cannot be opened *)
Definition no_index_env : Environment :=
  {| os_environ := {[ "PINECONE_KEY" := "secret" ]};
     new_Pinecone := λ _,
       Return {| pc_Index := λ _, Raise (Exn "NotFoundException" "index not found") |};
     new_SentenceTransformer := λ _, Return stub_model |}.

(** an index whose second match has no metadata *)
Definition bare_index : Index :=
  {| query := λ _ _ _,
       Return {| matches :=
         [ part "BM-1042" "Blower motor 1/2 HP" (912345 # 1000000);
           {| match_id := "ZZ-0000"; match_score := 5 # 10; match_metadata := ∅ |} ] |} |}.

Definition bare_world : World :=
  {| globals := {| pc := Obj stub_pc; index := Obj bare_index;
                   embedding_model := Obj stub_model |};
     trace := [] |}.

(** {"description": null} *)
Definition null_description_request : Request :=
  {| body := Some (JDict {[ "description" := JNull ]}) |}.

(** "no such field" *)
Definition string_request : Request := {| body := Some (JStr "no such field") |}.

End Stub.


(** ** Predicates on the process-wide state *)

Section StatePredicates.
Context `{PyFloat}.

Definition handle_set {A} (b : binding A) : bool :=
  match b with Obj _ => true | _ => false end.

(** healthy: the three handles are set *)
Definition healthy (s : ServiceState) : bool :=
  handle_set (pc s) && handle_set (index s) && handle_set (embedding_model s).

(** no handle is set *)
Definition all_unset (s : ServiceState) : bool :=
  negb (handle_set (pc s)) && negb (handle_set (index s))
  && negb (handle_set (embedding_model s)).

(** degraded: some handle is not set *)
Definition degraded (s : ServiceState) : bool := negb (healthy s).

(** a world of the running process: its globals are those the
    initialisation left, whatever has been traced since *)
Definition after_boot (env : Environment) (w : World) : Prop :=
  globals w = globals (boot env).

(** reading fields of a response body *)
Definition field (name : string) (x : json) : option json :=
  match x with
  | JDict d => d !! name
  | _ => None
  end.

Definition score_of (x : json) : option float :=
  match field "score" x with
  | Some (JFloat s) => Some s
  | _ => None
  end.

(** [a] is ranked before [b]: both carry a score and [a]'s is not smaller *)
Definition score_ge (a b : json) : Prop :=
  ∃ x y, score_of a = Some x ∧ score_of b = Some y ∧ float_le y x.

(** the dictionary line 59-63 builds from a match and its description *)
Definition match_dict (m : ScoredVector) (description : json) : json :=
  JDict {[ "part_number" := JStr (match_id m);
           "description" := description;
           "score" := JFloat (round (match_score m) 4) ]}.

(** the body of a search-error response *)
Definition search_error (e : exn) : json :=
  JDict {[ "error" := JStr ("An unexpected search error occurred: " +:+ exn_str e) ]}.

Definition extend (w : World) (evs : list event) : World :=
  {| globals := globals w; trace := trace w ++ evs |}.

(** the condition [not embedding_model or not pc] of lines 40 and 81 *)
Definition guard : M bool :=
  py_or (em ← load "embedding_model" embedding_model; mret (py_not em))
        (p ← load "pc" pc; mret (py_not p)).

(** a computation that does not assign the globals *)
Definition keeps_globals {A} (m : M A) : Prop :=
  ∀ w, globals (snd (m w)) = globals w.

(** the bodies line 86 lets through, or chokes on, without their being an
    object: true in a boolean context, and either not a container at all,
    or a list holding the string 'description', or a string containing it *)
Definition raises_on_body (b : json) : bool :=
  py_truth b &&
  match b with
  | JDict _ => false
  | JList l => existsb (py_eq_str "description") l
  | JStr s => str_contains "description" s
  | _ => true
  end.

(** the bodies line 86 rejects: false in a boolean context, or a container
    in which 'description' is not found (an object without the key, a list
    without the string, a string without the substring) *)
Definition lacks_description (b : json) : bool :=
  match b with
  | JNull => true
  | JBool x => negb x
  | JInt z => Z.eqb z 0
  | JFloat x => negb (float_truth x)
  | JStr s => negb (str_contains "description" s)
  | JList l => negb (existsb (py_eq_str "description") l)
  | JDict d => match d !! "description" with Some _ => false | None => true end
  end.

(** the body of the two fixed error responses *)
Definition initialization_error : json :=
  JDict {[ "error" := JStr "Service initialization failed. Check server logs." ]}.

Definition missing_description_error : json :=
  JDict {[ "error" := JStr "Missing 'description' in request body." ]}.

End StatePredicates.

(** ** The guard and the initialisation *)

Section Basics.
Context `{PyFloat}.

Lemma guard_passes (w : World) p m :
  pc (globals w) = Obj p → embedding_model (globals w) = Obj m →
  guard w = (Return false, w).
Proof.
  intros Hp Hm.
  unfold guard, py_or, mbind, M_bind, bind, load, mret, M_ret, ret.
  rewrite Hm. cbn. rewrite Hp. reflexivity.
Qed.

Lemma guard_rejects_no_model (w : World) :
  embedding_model (globals w) = PyNone → guard w = (Return true, w).
Proof.
  intros Hm.
  unfold guard, py_or, mbind, M_bind, bind, load, mret, M_ret, ret.
  rewrite Hm. reflexivity.
Qed.

(** what the guard tells when it lets a call through *)
Lemma guard_false_inv (w w' : World) :
  guard w = (Return false, w') →
  w' = w ∧ (∃ p, pc (globals w) = Obj p) ∧ (∃ m, embedding_model (globals w) = Obj m).
Proof.
  unfold guard, py_or, mbind, M_bind, bind, load, mret, M_ret, ret.
  destruct (embedding_model (globals w)) eqn:Hm; cbn; try discriminate.
  destruct (pc (globals w)) eqn:Hp; cbn; try discriminate.
  intros [= <-]. eauto.
Qed.

(** the initialisation always completes, and leaves one of two shapes *)
Lemma boot_shape (env : Environment) :
  fst (initialize env fresh) = Return tt ∧
  ((∃ p ix m, globals (boot env) =
      {| pc := Obj p; index := Obj ix; embedding_model := Obj m |}) ∨
   (pc (globals (boot env)) = PyNone ∧
    embedding_model (globals (boot env)) = PyNone ∧
    (index (globals (boot env)) = Unbound ∨ ∃ ix, index (globals (boot env)) = Obj ix))).
Proof.
  unfold boot, initialize, try_except, os_environ_get, external, store, print,
    raise, mbind, M_bind, bind, external; cbn.
  destruct (os_environ env !! "PINECONE_KEY") as [key|]; cbn; [|eauto 10].
  destruct (String.eqb key ""); cbn; [eauto 10|].
  destruct (new_Pinecone env key) as [p|e]; cbn; [|eauto 10].
  destruct (pc_Index p INDEX_NAME) as [ix|e]; cbn; [|eauto 10].
  destruct (new_SentenceTransformer env EMBEDDING_MODEL_NAME) as [m|e]; cbn; eauto 10.
Qed.

Lemma degraded_after_boot (env : Environment) (w : World) :
  after_boot env w → degraded (globals w) = true →
  pc (globals w) = PyNone ∧ embedding_model (globals w) = PyNone.
Proof.
  unfold after_boot. intros -> Hd.
  destruct (boot_shape env) as [_ [(p & ix & m & Hs)|(Hp & Hm & _)]]; [|done].
  rewrite Hs in Hd. discriminate.
Qed.

End Basics.

Section Frame.
Context `{PyFloat}.

Lemma keeps_globals_ret {A} (a : A) : keeps_globals (ret a).
Proof. by intros w. Qed.

Lemma keeps_globals_raise {A} (e : exn) : keeps_globals (raise (A:=A) e).
Proof. by intros w. Qed.

Lemma keeps_globals_lift {A} (r : outcome A) : keeps_globals (lift r).
Proof. by intros w. Qed.

Lemma keeps_globals_external {A} (ev : event) (r : outcome A) :
  keeps_globals (external ev r).
Proof. by intros w. Qed.

Lemma keeps_globals_load {A} (name : string) (get : ServiceState → binding A) :
  keeps_globals (load name get).
Proof. intros w. unfold load. by destruct (get (globals w)). Qed.

Lemma keeps_globals_attribute {A} (o : option A) (attr : string) :
  keeps_globals (attribute o attr).
Proof. by destruct o. Qed.

Lemma keeps_globals_bind {A B} (m : M A) (k : A → M B) :
  keeps_globals m → (∀ a, keeps_globals (k a)) → keeps_globals (bind m k).
Proof.
  intros Hm Hk w. unfold bind. specialize (Hm w).
  destruct (m w) as [[a|e] w']; cbn in *; [|done].
  by rewrite Hk.
Qed.

Lemma keeps_globals_try_except {A} (body : M A) (handler : exn → M A) :
  keeps_globals body → (∀ e, keeps_globals (handler e)) →
  keeps_globals (try_except body handler).
Proof.
  intros Hb Hh w. unfold try_except. specialize (Hb w).
  destruct (body w) as [[a|e] w']; cbn in *; [done|].
  by rewrite Hh.
Qed.

End Frame.

Ltac keeps_globals :=
  unfold mbind, M_bind, mret, M_ret;
  repeat first
    [ apply keeps_globals_ret | apply keeps_globals_raise
    | apply keeps_globals_lift | apply keeps_globals_external
    | apply keeps_globals_load | apply keeps_globals_attribute
    | apply keeps_globals_bind; [|intros ?]
    | apply keeps_globals_try_except; [|intros ?]
    | match goal with
      | |- keeps_globals (if ?b then _ else _) => destruct b
      | |- keeps_globals (match ?x with _ => _ end) => destruct x
      end ].

Section Matcher.
Context `{PyFloat}.

Lemma find_matching_parts_degraded (technician_description top_k : json) (w : World) :
  embedding_model (globals w) = PyNone →
  find_matching_parts technician_description top_k w
  = (Return ("Service not initialized.", []), w).
Proof.
  intros Hm. unfold find_matching_parts. fold guard.
  unfold mbind at 1. unfold M_bind, bind.
  rewrite (guard_rejects_no_model w Hm). reflexivity.
Qed.

Lemma match_result_described (m : ScoredVector) (d : json) :
  match_metadata m !! "description" = Some d → match_result m = Return (match_dict m d).
Proof. intros Hd. unfold match_result, match_dict. rewrite Hd. reflexivity. Qed.

Lemma process_matches_spec (ms : list ScoredVector) (rs acc : list json) :
  Forall2 (λ m r, match_result m = Return r) ms rs →
  process_matches ms acc = Return (acc ++ rs).
Proof.
  intros Hall. revert acc.
  induction Hall as [|m r ms rs Hm _ IH]; intros acc; cbn.
  - by rewrite app_nil_r.
  - rewrite Hm, IH, <- app_assoc. reflexivity.
Qed.

(** the loop stops at the first match without a description *)
Lemma process_matches_raises (ms : list ScoredVector) (acc : list json) :
  Exists (λ m, match_metadata m !! "description" = None) ms →
  process_matches ms acc = Raise (KeyError "description").
Proof.
  intros Hex. revert acc.
  induction Hex as [m ms Hm|m ms _ IH]; intros acc; cbn; unfold match_result.
  - by rewrite Hm.
  - destruct (match_metadata m !! "description"); [apply IH | reflexivity].
Qed.

Lemma extend_extend (w : World) (a b : list event) :
  extend (extend w a) b = extend w (a ++ b).
Proof. unfold extend; cbn. by rewrite app_assoc. Qed.

(** the matcher in a world where the guard passes and the index is set:
    one call to the model, one to the index, then the loop *)
Lemma find_matching_parts_healthy (technician_description top_k : json) (w : World) p ix m :
  pc (globals w) = Obj p → index (globals w) = Obj ix →
  embedding_model (globals w) = Obj m →
  find_matching_parts technician_description top_k w =
  match encode m technician_description with
  | Raise e => (Raise e, extend w [Encode technician_description])
  | Return v =>
      let w' := extend w [Encode technician_description; Query v top_k true] in
      match query ix v top_k true with
      | Raise e => (Raise e, w')
      | Return query_results =>
          match process_matches (matches query_results) [] with
          | Raise e => (Raise e, w')
          | Return matches => (Return ("Success", matches), w')
          end
      end
  end.
Proof.
  intros Hp Hix Hm. unfold find_matching_parts. fold guard.
  unfold mbind at 1. unfold M_bind at 1. unfold bind at 1.
  rewrite (guard_passes w p m Hp Hm).
  unfold mbind, M_bind, bind, load, attribute, external, lift, mret, M_ret, ret.
  rewrite Hm; cbn. fold (extend w [Encode technician_description]).
  destruct (encode m technician_description) as [v|e]; [|reflexivity].
  rewrite Hix; cbn.
  rewrite <- app_assoc; cbn.
  fold (extend w [Encode technician_description; Query v top_k true]).
  destruct (query ix v top_k true) as [qr|e]; [|reflexivity].
  destruct (process_matches (matches qr) []); reflexivity.
Qed.

(** past the guard the matcher has only one status to return *)
Lemma find_matching_parts_passed_guard (technician_description top_k : json)
    (w w' : World) p m (status : string) (matches : list json) :
  pc (globals w) = Obj p → embedding_model (globals w) = Obj m →
  find_matching_parts technician_description top_k w = (Return (status, matches), w') →
  status = "Success".
Proof.
  intros Hp Hm. unfold find_matching_parts. fold guard.
  unfold mbind at 1. unfold M_bind at 1. unfold bind at 1.
  rewrite (guard_passes w p m Hp Hm).
  unfold mbind, M_bind, bind, load, attribute, external, lift, mret, M_ret, ret,
    raise.
  rewrite Hm; cbn.
  destruct (encode m technician_description) as [v|e]; [|discriminate].
  destruct (index (globals w)) as [| |ix]; cbn; try discriminate.
  destruct (query ix v top_k true) as [qr|e]; [|discriminate].
  destruct (process_matches _ _); [|discriminate].
  by intros [= <- _ _].
Qed.

End Matcher.

Section Handler.
Context `{PyFloat}.

Lemma query_part_finder_degraded (request : Request) (w : World) :
  embedding_model (globals w) = PyNone →
  query_part_finder request w =
  (Return (BodyStatus
     (jsonify (JDict {[ "error" := JStr "Service initialization failed. Check server logs." ]}))
     500), w).
Proof.
  intros Hm. unfold query_part_finder. fold guard.
  unfold mbind at 1. unfold M_bind, bind.
  rewrite (guard_rejects_no_model w Hm). reflexivity.
Qed.

(** past the guard: the body is read and validated *)
Lemma query_part_finder_parsed (request : Request) (w : World) p m :
  pc (globals w) = Obj p → embedding_model (globals w) = Obj m →
  query_part_finder request w =
  let request_json := default JNull (body request) in
  let w1 := extend w [GetJson] in
  if negb (py_truth request_json)
  then (Return (BodyStatus
          (jsonify (JDict {[ "error" := JStr "Missing 'description' in request body." ]}))
          400), w1)
  else
    match py_contains "description" request_json with
    | Raise e => (Raise e, w1)
    | Return false =>
        (Return (BodyStatus
           (jsonify (JDict {[ "error" := JStr "Missing 'description' in request body." ]}))
           400), w1)
    | Return true =>
        match py_getitem request_json "description" with
        | Raise e => (Raise e, w1)
        | Return description =>
            match py_get request_json "top_k" (JInt 3) with
            | Raise e => (Raise e, w1)
            | Return top_k =>
                match find_matching_parts description top_k w1 with
                | (Return (status, matches), w2) =>
                    (Return (BodyStatus
                       (jsonify (JDict {[ "query_description" := description;
                                          "status" := JStr status;
                                          "matches" := JList matches ]}))
                       200), w2)
                | (Raise e, w2) =>
                    (Return (BodyStatus (jsonify (search_error e)) 500), w2)
                end
            end
        end
    end.
Proof.
  intros Hp Hm. unfold query_part_finder. fold guard.
  unfold mbind at 1. unfold M_bind at 1. unfold bind at 1.
  rewrite (guard_passes w p m Hp Hm).
  unfold get_json, py_or, try_except, mbind, M_bind, bind, external, lift, mret, M_ret, ret.
  cbn. fold (extend w [GetJson]).
  destruct (py_truth (default JNull (body request))); cbn; [|reflexivity].
  destruct (py_contains "description" (default JNull (body request))) as [[|]|e];
    cbn; try reflexivity.
  destruct (py_getitem (default JNull (body request)) "description") as [d|e];
    cbn; [|reflexivity].
  destruct (py_get (default JNull (body request)) "top_k" (JInt 3)) as [k|e];
    cbn; [|reflexivity].
  destruct (find_matching_parts d k (extend w [GetJson])) as [[[status ms]|e] w2];
    reflexivity.
Qed.

(** every way the handler can return *)
Lemma query_part_finder_returns_inv (request : Request) (w w' : World) (v : view_result) :
  query_part_finder request w = (Return v, w') →
  v = BodyStatus
        (jsonify (JDict {[ "error" := JStr "Service initialization failed. Check server logs." ]}))
        500
  ∨ v = BodyStatus
        (jsonify (JDict {[ "error" := JStr "Missing 'description' in request body." ]}))
        400
  ∨ (∃ description matches,
       v = BodyStatus
             (jsonify (JDict {[ "query_description" := description;
                                "status" := JStr "Success";
                                "matches" := JList matches ]}))
             200)
  ∨ (∃ e, v = BodyStatus (jsonify (search_error e)) 500).
Proof.
  intros Hrun.
  destruct (guard w) as [[[|]|e] w0] eqn:Hg.
  - left. revert Hrun. unfold query_part_finder. fold guard.
    unfold mbind at 1. unfold M_bind, bind. rewrite Hg. by intros [= <- _].
  - apply guard_false_inv in Hg as (-> & [p Hp] & [m Hm]).
    rewrite (query_part_finder_parsed request w p m Hp Hm) in Hrun. cbn zeta in Hrun.
    destruct (negb _); [right; left; congruence|].
    destruct (py_contains _ _) as [[|]|?]; [|right; left; congruence|congruence].
    destruct (py_getitem _ _) as [d|?]; [|congruence].
    destruct (py_get _ _ _) as [k|?]; [|congruence].
    destruct (find_matching_parts d k _) as [[[status ms]|e] w2] eqn:Hf.
    + apply (find_matching_parts_passed_guard _ _ _ _ p m) in Hf as ->; [|done..].
      right; right; left. exists d, ms. congruence.
    + right; right; right. exists e. congruence.
  - exfalso. revert Hrun. unfold query_part_finder. fold guard.
    unfold mbind at 1. unfold M_bind, bind. by rewrite Hg.
Qed.

(** a body that is an object with a 'description' passes the validation *)
Lemma query_part_finder_well_formed (request : Request) (w : World) p m
    (d : gmap string json) (description : json) :
  pc (globals w) = Obj p → embedding_model (globals w) = Obj m →
  body request = Some (JDict d) → d !! "description" = Some description →
  query_part_finder request w =
  match find_matching_parts description (default (JInt 3) (d !! "top_k"))
          (extend w [GetJson]) with
  | (Return (status, matches), w2) =>
      (Return (BodyStatus
         (jsonify (JDict {[ "query_description" := description;
                            "status" := JStr status;
                            "matches" := JList matches ]}))
         200), w2)
  | (Raise e, w2) => (Return (BodyStatus (jsonify (search_error e)) 500), w2)
  end.
Proof.
  intros Hp Hm Hb Hd.
  rewrite (query_part_finder_parsed request w p m Hp Hm), Hb. cbn.
  assert (size d ≠ 0)%nat as Hsz by (apply (map_size_ne_0_lookup_2 d "description"); eauto).
  destruct (Nat.eqb_spec (size d) 0) as [|_]; [done|]. cbn.
  rewrite bool_decide_eq_true_2 by eauto.
  rewrite Hd. reflexivity.
Qed.

(** a body that is missing, null, or an object without 'description' is
    rejected after the parse, before anything else is called *)
Lemma query_part_finder_bad_request (request : Request) (w : World) p m :
  pc (globals w) = Obj p → embedding_model (globals w) = Obj m →
  (body request = None ∨ body request = Some JNull
   ∨ ∃ d, body request = Some (JDict d) ∧ d !! "description" = None) →
  query_part_finder request w =
  (Return (BodyStatus
     (jsonify (JDict {[ "error" := JStr "Missing 'description' in request body." ]}))
     400), extend w [GetJson]).
Proof.
  intros Hp Hm Hb.
  rewrite (query_part_finder_parsed request w p m Hp Hm).
  destruct Hb as [->|[->|(d & -> & Hd)]]; cbn; try reflexivity.
  destruct (negb (size d =? 0)%nat); cbn; [|reflexivity].
  rewrite Hd. rewrite bool_decide_eq_false_2; [reflexivity|].
  by intros [? [=]].
Qed.

Lemma healthy_inv (s : ServiceState) :
  healthy s = true →
  ∃ p ix m, pc s = Obj p ∧ index s = Obj ix ∧ embedding_model s = Obj m.
Proof.
  unfold healthy, handle_set.
  destruct (pc s), (index s), (embedding_model s); try discriminate. eauto 10.
Qed.

(** the handler reads the three globals and never assigns them *)
Lemma find_matching_parts_globals (technician_description top_k : json) :
  keeps_globals (find_matching_parts technician_description top_k).
Proof. unfold find_matching_parts, py_or. keeps_globals. Qed.

Lemma query_part_finder_keeps_globals (request : Request) :
  keeps_globals (query_part_finder request).
Proof.
  unfold query_part_finder, py_or, get_json. keeps_globals.
Qed.

Lemma query_part_finder_globals (request : Request) (w : World) :
  globals (snd (query_part_finder request w)) = globals w.
Proof. apply query_part_finder_keeps_globals. Qed.

(** so every request of the process runs in a world [after_boot] *)
Lemma after_boot_preserved (env : Environment) (request : Request) (w : World) :
  after_boot env w → after_boot env (snd (query_part_finder request w)).
Proof. unfold after_boot. by rewrite query_part_finder_globals. Qed.

Lemma after_boot_boot (env : Environment) : after_boot env (boot env).
Proof. reflexivity. Qed.

(** when the body is absent, null or a JSON object, the handler returns,
    and the body of its response has a 'matches' list or an 'error' string *)
Lemma query_part_finder_object_body_returns
    (env : Environment) (request : Request) (w : World) :
  after_boot env w →
  (body request = None ∨ body request = Some JNull
   ∨ ∃ d, body request = Some (JDict d)) →
  ∃ v w', query_part_finder request w = (Return v, w')
          ∧ ((∃ l, field "matches" (http_body v) = Some (JList l))
             ∨ (∃ msg, field "error" (http_body v) = Some (JStr msg))).
Proof.
  intros Hboot Hb.
  destruct (degraded (globals w)) eqn:Hdeg.
  - destruct (degraded_after_boot env w Hboot Hdeg) as [_ Hm].
    rewrite (query_part_finder_degraded request w Hm).
    eexists _, _. split; [reflexivity|]. right. eexists. reflexivity.
  - apply negb_false_iff in Hdeg.
    destruct (healthy_inv _ Hdeg) as (p & ix & m & Hp & _ & Hm).
    assert (Hmissing : ∀ w1,
      query_part_finder request w =
        (Return (BodyStatus
           (jsonify (JDict {[ "error" := JStr "Missing 'description' in request body." ]}))
           400), w1) →
      ∃ v w', query_part_finder request w = (Return v, w')
          ∧ ((∃ l, field "matches" (http_body v) = Some (JList l))
             ∨ (∃ msg, field "error" (http_body v) = Some (JStr msg)))).
    { intros w1 ->. eexists _, _. split; [reflexivity|]. right. eexists. reflexivity. }
    destruct Hb as [Hb|[Hb|[d Hb]]].
    + eapply Hmissing, query_part_finder_bad_request; eauto.
    + eapply Hmissing, query_part_finder_bad_request; eauto.
    + destruct (d !! "description") as [description|] eqn:Hd.
      * rewrite (query_part_finder_well_formed request w p m d description Hp Hm Hb Hd).
        destruct (find_matching_parts _ _ _) as [[[status ms]|e] w2];
          eexists _, _; (split; [reflexivity|]).
        -- left. eexists. reflexivity.
        -- right. eexists. reflexivity.
      * eapply Hmissing, query_part_finder_bad_request; eauto 10.
Qed.

End Handler.

(** ** The concrete instance is well behaved *)

Section StubFacts.
Import Stub.

Lemma round_half_even_mono (x y : Q) :
  Qle x y → (round_half_even x ≤ round_half_even y)%Z.
Proof.
  destruct x as [a b], y as [c d]. unfold Qle, round_half_even; cbn.
  intros Hle.
  pose proof (Qfloor_resp_le (a # b) (c # d) Hle) as Hf; cbn in Hf.
  pose proof (Z.div_mod a (Zpos b) ltac:(lia)) as Ha.
  pose proof (Z.mod_pos_bound a (Zpos b) ltac:(lia)) as Hra.
  pose proof (Z.div_mod c (Zpos d) ltac:(lia)) as Hc.
  pose proof (Z.mod_pos_bound c (Zpos d) ltac:(lia)) as Hrc.
  set (fa := (a / Zpos b)%Z) in *. set (fc := (c / Zpos d)%Z) in *.
  set (ra := (a mod Zpos b)%Z) in *. set (rc := (c mod Zpos d)%Z) in *.
  replace (a - fa * Zpos b)%Z with ra by lia.
  replace (c - fc * Zpos d)%Z with rc by lia.
  destruct (Z.eq_dec fa fc) as [Heq|Hne].
  - assert (Hr : (ra * Zpos d ≤ rc * Zpos b)%Z) by nia.
    rewrite <- Heq.
    destruct (Z.compare_spec (2 * ra) (Zpos b)) as [E1|L1|G1];
      destruct (Z.compare_spec (2 * rc) (Zpos d)) as [E2|L2|G2];
      destruct (Z.even fa); try lia; exfalso; nia.
  - assert (fa + 1 ≤ fc)%Z by lia.
    destruct (2 * ra ?= Zpos b)%Z; destruct (2 * rc ?= Zpos d)%Z;
      destruct (Z.even fa); destruct (Z.even fc); lia.
Qed.

Lemma Q_round_mono (ndigits : Z) (x y : Q) :
  Qle x y → Qle (Q_round x ndigits) (Q_round y ndigits).
Proof.
  intros Hle. unfold Q_round. rewrite !Qred_correct.
  assert (Hp : Qle (0 # 1) (pow10 ndigits)) by (apply Qpower_0_le; discriminate).
  unfold Qdiv. apply Qmult_le_compat_r; [|by apply Qinv_le_0_compat].
  rewrite <- Zle_Qle. apply round_half_even_mono.
  by apply Qmult_le_compat_r.
Qed.

End StubFacts.

(** ** The claims *)

(** C1 (defect shown at a concrete request).  The claim is that no request
    makes [query_part_finder] raise.  The validation of line 86 accepts a
    body that is the JSON array ["description"] (the list is non-empty and
    holds the string), and line 89 then subscripts the list with a string:
    the TypeError is raised outside the try block and leaves the handler,
    whatever the three handles are. *)
Theorem query_part_finder_raises_on_list_body `{PyFloat}
    (p : Pinecone) (ix : Index) (m : SentenceTransformer) (tr : list event) :
  query_part_finder {| body := Some (JList [JStr "description"]) |}
    {| globals := {| pc := Obj p; index := Obj ix; embedding_model := Obj m |};
       trace := tr |}
  = (Raise (TypeError "list indices must be integers or slices, not str"),
     {| globals := {| pc := Obj p; index := Obj ix; embedding_model := Obj m |};
        trace := tr ++ [GetJson] |}).
Proof. reflexivity. Qed.

(** C2 (defect).  The claim is that every response carries
    Access-Control-Allow-Origin: *.  The dictionary [headers] of line 76 is
    built and never returned: whenever the handler returns, the result is
    the two-element form and the response has no such header. *)
Theorem query_part_finder_no_cors_header `{PyFloat}
    (request : Request) (w w' : World) (v : view_result) :
  query_part_finder request w = (Return v, w') →
  header "Access-Control-Allow-Origin" (http_headers v) = None.
Proof.
  intros Hrun.
  destruct (query_part_finder_returns_inv request w w' v Hrun)
    as [->|[->|[(d & ms & ->)|[e ->]]]]; reflexivity.
Qed.

Lemma query_part_finder_no_cors_header_witness :
  ∃ v w', query_part_finder Stub.blower_request Stub.healthy_world = (Return v, w')
          ∧ http_status v = 200
          ∧ header "Access-Control-Allow-Origin" (http_headers v) = None.
Proof.
  eexists _, _. split; [reflexivity|]. split; [reflexivity|].
  eapply (query_part_finder_no_cors_header Stub.blower_request Stub.healthy_world).
  reflexivity.
Defined.

(** C3, as stated, fails: when the client and the index are created and
    loading the embedding model raises, the handler of line 30 resets [pc]
    and [embedding_model] only, and [index] keeps its handle. *)
Lemma boot_partial_state :
  ¬ (healthy (globals (boot Stub.no_model_env)) = true
     ∨ all_unset (globals (boot Stub.no_model_env)) = true).
Proof. intros [Hs|Hs]; vm_compute in Hs; discriminate. Qed.

(** C3, amended.  The initialisation always completes without raising, and
    afterwards either the three handles are set, or [pc] and
    [embedding_model], the two names every request tests, are both
    [None]. *)
Theorem initialization_all_or_flags_unset `{PyFloat} (env : Environment) :
  fst (initialize env fresh) = Return tt ∧
  (healthy (globals (boot env)) = true
   ∨ (pc (globals (boot env)) = PyNone
      ∧ embedding_model (globals (boot env)) = PyNone)).
Proof.
  destruct (boot_shape env) as [Hret [(p & ix & m & Hs)|(Hp & Hm & _)]].
  - split; [done|]. left. by rewrite Hs.
  - split; [done|]. by right.
Qed.

(** C4.  In a healthy state, when the model and the index answer and every
    match carries a 'description' in its metadata, [find_matching_parts]
    returns "Success" with one dictionary per match, at the same position,
    made of the match's id, its description and its score rounded to 4
    digits.  Nothing is dropped, added or reordered: the lengths agree (so
    the result is within [top_k] when the index's answer is), and the
    scores are non-increasing when the index's are and [round] is
    monotone. *)
Theorem find_matching_parts_success `{PyFloat}
    (technician_description top_k : json) (w : World)
    (p : Pinecone) (ix : Index) (m : SentenceTransformer)
    (v : list float) (query_results : QueryResponse) :
  globals w = {| pc := Obj p; index := Obj ix; embedding_model := Obj m |} →
  encode m technician_description = Return v →
  query ix v top_k true = Return query_results →
  Forall (λ mt, is_Some (match_metadata mt !! "description")) (matches query_results) →
  ∃ results : list json,
    find_matching_parts technician_description top_k w
    = (Return ("Success", results),
       extend w [Encode technician_description; Query v top_k true])
    ∧ length results = length (matches query_results)
    ∧ (∀ i mt, matches query_results !! i = Some mt →
         ∃ d, match_metadata mt !! "description" = Some d
              ∧ results !! i = Some (match_dict mt d))
    ∧ (∀ n : Z, top_k = JInt n →
         (Z.of_nat (length (matches query_results)) ≤ n)%Z →
         (Z.of_nat (length results) ≤ n)%Z)
    ∧ ((∀ x y, float_le x y → float_le (round x 4) (round y 4)) →
       (∀ i a b, matches query_results !! i = Some a →
                 matches query_results !! S i = Some b →
                 float_le (match_score b) (match_score a)) →
       ∀ i a b, results !! i = Some a → results !! S i = Some b → score_ge a b).
Proof.
  intros Hs Henc Hq Hall.
  assert (∃ results, Forall2 (λ mt r, match_result mt = Return r)
                       (matches query_results) results) as [results Hres].
  { induction Hall as [|mt ms [d Hd] _ [rs IH]]; [by exists []|].
    exists (match_dict mt d :: rs). constructor; [|done].
    by apply match_result_described. }
  exists results.
  assert (Hlen : length results = length (matches query_results))
    by (symmetry; eapply Forall2_length; eassumption).
  assert (Hpos : ∀ i mt, matches query_results !! i = Some mt →
            ∃ d, match_metadata mt !! "description" = Some d
                 ∧ results !! i = Some (match_dict mt d)).
  { intros i mt Hi.
    destruct (Forall2_lookup_l _ _ _ _ _ Hres Hi) as (r & Hr & Hmr).
    rewrite Forall_lookup in Hall. destruct (Hall i mt Hi) as [d Hd].
    exists d. split; [done|].
    rewrite (match_result_described mt d Hd) in Hmr. congruence. }
  split; [|split; [done|split; [done|split]]].
  - rewrite (find_matching_parts_healthy _ _ w p ix m) by (by rewrite Hs).
    rewrite Henc. cbn zeta. rewrite Hq.
    by rewrite (process_matches_spec _ results []).
  - intros n _ Hn. by rewrite Hlen.
  - intros Hmono Hsorted i a b Ha Hb.
    destruct (lookup_lt_is_Some_2 (matches query_results) i) as [ma Hma].
    { rewrite <- Hlen. eapply lookup_lt_Some; eassumption. }
    destruct (lookup_lt_is_Some_2 (matches query_results) (S i)) as [mb Hmb].
    { rewrite <- Hlen. eapply lookup_lt_Some; eassumption. }
    destruct (Hpos i ma Hma) as (da & _ & Ha').
    destruct (Hpos (S i) mb Hmb) as (db & _ & Hb').
    rewrite Ha in Ha'. rewrite Hb in Hb'.
    injection Ha' as ->. injection Hb' as ->.
    exists (round (match_score ma) 4), (round (match_score mb) 4).
    split; [reflexivity|]. split; [reflexivity|].
    apply Hmono. by apply (Hsorted i).
Qed.

Lemma find_matching_parts_success_witness :
  ∃ results : list json,
    find_matching_parts (JStr "blower motor") (JInt 2) Stub.healthy_world
    = (Return ("Success", results),
       extend Stub.healthy_world
         [Encode (JStr "blower motor"); Query [1 # 10; 2 # 10; 3 # 10] (JInt 2) true])
    ∧ length results = 2%nat
    ∧ (Z.of_nat (length results) ≤ 2)%Z
    ∧ (∀ i a b, results !! i = Some a → results !! S i = Some b → score_ge a b).
Proof.
  destruct (find_matching_parts_success (JStr "blower motor") (JInt 2)
              Stub.healthy_world Stub.stub_pc Stub.stub_index Stub.stub_model
              [1 # 10; 2 # 10; 3 # 10] {| matches := take 2 Stub.catalogue |})
    as (results & Hrun & Hlen & _ & Hk & Hsorted).
  - reflexivity.
  - reflexivity.
  - reflexivity.
  - repeat constructor; eexists; reflexivity.
  - exists results. split; [exact Hrun|]. split; [exact Hlen|].
    split; [apply (Hk 2%Z); [reflexivity | cbn; lia]|].
    apply Hsorted.
    + intros x y. apply (Q_round_mono 4).
    + intros [|[|i]] a b Ha Hb; cbn in Ha, Hb; try discriminate.
      injection Ha as <-. injection Hb as <-. cbn. unfold Qle; cbn; lia.
Defined.

(** C5.  Once the initialisation has left the state degraded (some handle
    is not set), every request is answered 500 with the fixed
    initialisation-failure body, whatever its body; the world is unchanged,
    so the body was not parsed and no collaborator was called. *)
Theorem query_part_finder_degraded_500 `{PyFloat}
    (env : Environment) (w : World) (request : Request) :
  after_boot env w → degraded (globals w) = true →
  query_part_finder request w =
  (Return (BodyStatus
     (jsonify (JDict {[ "error" := JStr "Service initialization failed. Check server logs." ]}))
     500), w).
Proof.
  intros Hboot Hdeg.
  destruct (degraded_after_boot env w Hboot Hdeg) as [_ Hm].
  by apply query_part_finder_degraded.
Qed.

Lemma query_part_finder_degraded_500_witness :
  degraded (globals (boot Stub.no_model_env)) = true ∧
  query_part_finder Stub.blower_request (boot Stub.no_model_env) =
  (Return (BodyStatus
     (jsonify (JDict {[ "error" := JStr "Service initialization failed. Check server logs." ]}))
     500), boot Stub.no_model_env).
Proof.
  split; [reflexivity|].
  apply (query_part_finder_degraded_500 Stub.no_model_env); reflexivity.
Defined.

(** C6 (defect shown at a concrete request).  The claim is that a body
    without a 'description' field is answered 400.  The JSON body [5] has
    no such field, yet it is true in a boolean context and line 86 then
    tests ['description' not in 5]: the TypeError leaves the handler.  This
    is the defect of C1: the validation assumes the body is an object. *)
Theorem query_part_finder_raises_on_number_body `{PyFloat}
    (p : Pinecone) (ix : Index) (m : SentenceTransformer) (tr : list event) :
  query_part_finder {| body := Some (JInt 5) |}
    {| globals := {| pc := Obj p; index := Obj ix; embedding_model := Obj m |};
       trace := tr |}
  = (Raise (TypeError "argument of type 'int' is not iterable"),
     {| globals := {| pc := Obj p; index := Obj ix; embedding_model := Obj m |};
        trace := tr ++ [GetJson] |}).
Proof. reflexivity. Qed.

(** C7.  For a healthy state and a body that is an object with a
    'description', the handler always returns; when the matcher raises [e]
    the response is 500 with the search-error body built from [str(e)], and
    the status is 500 exactly when the matcher raised. *)
Theorem query_part_finder_search_error `{PyFloat}
    (request : Request) (w : World) (d : gmap string json) (description : json) :
  healthy (globals w) = true →
  body request = Some (JDict d) →
  d !! "description" = Some description →
  let run := find_matching_parts description (default (JInt 3) (d !! "top_k"))
               (extend w [GetJson]) in
  (∀ e w', run = (Raise e, w') →
     query_part_finder request w
     = (Return (BodyStatus
          (jsonify (JDict {[ "error" :=
             JStr ("An unexpected search error occurred: " +:+ exn_str e) ]}))
          500), w'))
  ∧ (∃ v w', query_part_finder request w = (Return v, w')
             ∧ (http_status v = 500 ↔ ∃ e, fst run = Raise e)).
Proof.
  intros Hh Hb Hd run.
  destruct (healthy_inv _ Hh) as (p & ix & m & Hp & _ & Hm).
  rewrite (query_part_finder_well_formed request w p m d description Hp Hm Hb Hd).
  fold run. split.
  - intros e w' ->. reflexivity.
  - destruct run as [[[status ms]|e] w2]; eexists _, _; (split; [reflexivity|]); cbn.
    + split; [discriminate|]. intros [e [=]].
    + split; eauto.
Qed.

Lemma query_part_finder_search_error_witness :
  query_part_finder Stub.numeric_description_request Stub.healthy_world
  = (Return (BodyStatus
       (jsonify (JDict {[ "error" :=
          JStr "An unexpected search error occurred: expected a string" ]}))
       500), extend Stub.healthy_world [GetJson; Encode (JInt 7)]).
Proof.
  apply (proj1 (query_part_finder_search_error Stub.numeric_description_request
                  Stub.healthy_world {[ "description" := JInt 7 ]} (JInt 7)
                  eq_refl eq_refl eq_refl) (TypeError "expected a string")).
  reflexivity.
Defined.

(** C8.  For a healthy state and a body that is an object with a
    'description' the model embeds, the index is queried exactly once, with
    the value of the body's 'top_k' whatever it is (zero, negative, null, a
    string), and with 3 only when the body has no 'top_k' key. *)
Theorem query_part_finder_top_k_passthrough `{PyFloat}
    (request : Request) (w : World) (d : gmap string json) (description : json)
    (p : Pinecone) (ix : Index) (m : SentenceTransformer) (v : list float) :
  globals w = {| pc := Obj p; index := Obj ix; embedding_model := Obj m |} →
  body request = Some (JDict d) →
  d !! "description" = Some description →
  encode m description = Return v →
  ∃ top_k : json,
    trace (snd (query_part_finder request w))
    = trace w ++ [GetJson; Encode description; Query v top_k true]
    ∧ (∀ x, d !! "top_k" = Some x → top_k = x)
    ∧ (d !! "top_k" = None → top_k = JInt 3).
Proof.
  intros Hs Hb Hd Henc.
  exists (default (JInt 3) (d !! "top_k")). split.
  - rewrite (query_part_finder_well_formed request w p m d description)
      by (done || by rewrite Hs).
    rewrite (find_matching_parts_healthy _ _ (extend w [GetJson]) p ix m)
      by (cbn; by rewrite Hs).
    rewrite Henc. cbn zeta. rewrite extend_extend.
    destruct (query ix v _ true) as [qr|e]; [|reflexivity].
    destruct (process_matches _ _); reflexivity.
  - split; [by intros x ->|by intros ->].
Qed.

Lemma query_part_finder_top_k_passthrough_witness :
  trace (snd (query_part_finder Stub.negative_request Stub.healthy_world))
  = [GetJson; Encode (JStr "x"); Query [1 # 10; 2 # 10; 3 # 10] (JInt (-1)) true]
  ∧ trace (snd (query_part_finder Stub.default_request Stub.healthy_world))
    = [GetJson; Encode (JStr "x"); Query [1 # 10; 2 # 10; 3 # 10] (JInt 3) true].
Proof.
  split.
  - destruct (query_part_finder_top_k_passthrough Stub.negative_request
                Stub.healthy_world {[ "description" := JStr "x"; "top_k" := JInt (-1) ]}
                (JStr "x") Stub.stub_pc Stub.stub_index Stub.stub_model
                [1 # 10; 2 # 10; 3 # 10] eq_refl eq_refl eq_refl eq_refl)
      as (top_k & Htrace & Hgiven & _).
    rewrite Htrace, (Hgiven (JInt (-1)) eq_refl). reflexivity.
  - destruct (query_part_finder_top_k_passthrough Stub.default_request
                Stub.healthy_world {[ "description" := JStr "x" ]}
                (JStr "x") Stub.stub_pc Stub.stub_index Stub.stub_model
                [1 # 10; 2 # 10; 3 # 10] eq_refl eq_refl eq_refl eq_refl)
      as (top_k & Htrace & _ & Habsent).
    rewrite Htrace, (Habsent eq_refl). reflexivity.
Defined.

(** C9.  Once the initialisation has left the state degraded (some handle
    is not set), [find_matching_parts] returns "Service not initialized."
    and the empty list for every description and [top_k]; the world is
    unchanged, so neither the model nor the index was called. *)
Theorem find_matching_parts_not_initialized `{PyFloat}
    (env : Environment) (w : World) (technician_description top_k : json) :
  after_boot env w → degraded (globals w) = true →
  find_matching_parts technician_description top_k w
  = (Return ("Service not initialized.", []), w).
Proof.
  intros Hboot Hdeg.
  destruct (degraded_after_boot env w Hboot Hdeg) as [_ Hm].
  by apply find_matching_parts_degraded.
Qed.

Lemma find_matching_parts_not_initialized_witness :
  degraded (globals (boot Stub.no_key_env)) = true ∧
  find_matching_parts (JStr "blower motor") (JInt 2) (boot Stub.no_key_env)
  = (Return ("Service not initialized.", []), boot Stub.no_key_env).
Proof.
  split; [reflexivity|].
  apply (find_matching_parts_not_initialized Stub.no_key_env); reflexivity.
Defined.

(** C10.  Whatever the state and the request, a response with status 200
    has a body whose 'status' field is the string "Success": past the
    handler's guard the matcher's own guard cannot fire. *)
Theorem query_part_finder_200_is_success `{PyFloat}
    (request : Request) (w w' : World) (v : view_result) :
  query_part_finder request w = (Return v, w') →
  http_status v = 200 →
  field "status" (http_body v) = Some (JStr "Success").
Proof.
  intros Hrun Hst.
  destruct (query_part_finder_returns_inv request w w' v Hrun)
    as [->|[->|[(d & ms & ->)|[e ->]]]]; try discriminate.
  reflexivity.
Qed.

Lemma query_part_finder_200_is_success_witness :
  ∃ v w', query_part_finder Stub.blower_request Stub.healthy_world = (Return v, w')
          ∧ http_status v = 200
          ∧ field "status" (http_body v) = Some (JStr "Success").
Proof.
  eexists _, _. split; [reflexivity|]. split; [reflexivity|].
  eapply (query_part_finder_200_is_success Stub.blower_request Stub.healthy_world);
    reflexivity.
Defined.

(** ** Further properties of the initialisation (lines 16-34) *)

Ltac run_initialize :=
  unfold boot, initialize, try_except, os_environ_get, external, store, print,
    raise, mbind, M_bind, bind, external; cbn.

(** X1.  When the secret is set and not empty and the three constructions
    return, the three globals hold exactly the objects returned, and the
    collaborators were called once each, in the order client, index, model,
    with the secret, the fixed index name and the fixed model name. *)
Theorem initialize_success `{PyFloat} (env : Environment) (key : string)
    (p : Pinecone) (ix : Index) (m : SentenceTransformer) :
  os_environ env !! "PINECONE_KEY" = Some key → key ≠ "" →
  new_Pinecone env key = Return p →
  pc_Index p "kelleher-hvac-parts-free" = Return ix →
  new_SentenceTransformer env "all-MiniLM-L6-v2" = Return m →
  boot env =
  {| globals := {| pc := Obj p; index := Obj ix; embedding_model := Obj m |};
     trace := [ EnvironGet "PINECONE_KEY"; NewPinecone key;
                OpenIndex "kelleher-hvac-parts-free"; LoadModel "all-MiniLM-L6-v2";
                Stdout "Initialization complete: Pinecone and SentenceTransformer loaded." ] |}.
Proof.
  intros Hkey Hne Hp Hix Hm. run_initialize.
  rewrite Hkey; cbn.
  destruct (String.eqb_spec key "") as [|_]; [done|]. cbn.
  rewrite Hp; cbn. unfold INDEX_NAME. rewrite Hix; cbn.
  unfold EMBEDDING_MODEL_NAME. rewrite Hm; cbn. reflexivity.
Qed.

Lemma initialize_success_witness :
  healthy (globals (boot Stub.good_env)) = true ∧
  trace (boot Stub.good_env) =
  [ EnvironGet "PINECONE_KEY"; NewPinecone "secret";
    OpenIndex "kelleher-hvac-parts-free"; LoadModel "all-MiniLM-L6-v2";
    Stdout "Initialization complete: Pinecone and SentenceTransformer loaded." ].
Proof.
  rewrite (initialize_success Stub.good_env "secret" Stub.stub_pc Stub.stub_index
             Stub.stub_model eq_refl ltac:(discriminate) eq_refl eq_refl eq_refl).
  split; reflexivity.
Defined.

(** X2.  A healthy state comes only from a run in which every step
    succeeded: the secret was set and not empty, and the client, the index
    and the model were all obtained. *)
Theorem healthy_only_if_all_steps `{PyFloat} (env : Environment) :
  healthy (globals (boot env)) = true →
  ∃ key p ix m,
    os_environ env !! "PINECONE_KEY" = Some key ∧ key ≠ ""
    ∧ new_Pinecone env key = Return p
    ∧ pc_Index p "kelleher-hvac-parts-free" = Return ix
    ∧ new_SentenceTransformer env "all-MiniLM-L6-v2" = Return m
    ∧ globals (boot env) = {| pc := Obj p; index := Obj ix; embedding_model := Obj m |}.
Proof.
  run_initialize.
  destruct (os_environ env !! "PINECONE_KEY") as [key|] eqn:Hkey; cbn; [|discriminate].
  destruct (String.eqb_spec key "") as [|Hne]; cbn; [discriminate|].
  destruct (new_Pinecone env key) as [p|e] eqn:Hp; cbn; [|discriminate].
  unfold INDEX_NAME.
  destruct (pc_Index p _) as [ix|e] eqn:Hix; cbn; [|discriminate].
  unfold EMBEDDING_MODEL_NAME.
  destruct (new_SentenceTransformer env _) as [m|e] eqn:Hm; cbn; [|discriminate].
  intros _. exists key, p, ix, m. done.
Qed.

Lemma healthy_only_if_all_steps_witness :
  ∃ key p ix m,
    os_environ Stub.good_env !! "PINECONE_KEY" = Some key ∧ key ≠ ""
    ∧ new_Pinecone Stub.good_env key = Return p
    ∧ pc_Index p "kelleher-hvac-parts-free" = Return ix
    ∧ new_SentenceTransformer Stub.good_env "all-MiniLM-L6-v2" = Return m
    ∧ globals (boot Stub.good_env)
      = {| pc := Obj p; index := Obj ix; embedding_model := Obj m |}.
Proof. apply (healthy_only_if_all_steps Stub.good_env). reflexivity. Defined.

(** X3.  When the secret is missing or is the empty string, no collaborator
    is constructed: the only events are the lookup and the one log line
    with the ValueError's message; [pc] and [embedding_model] are [None]
    and [index] was never assigned. *)
Theorem initialize_without_key `{PyFloat} (env : Environment) :
  os_environ env !! "PINECONE_KEY" = None ∨ os_environ env !! "PINECONE_KEY" = Some "" →
  boot env =
  {| globals := {| pc := PyNone; index := Unbound; embedding_model := PyNone |};
     trace := [ EnvironGet "PINECONE_KEY";
                Stdout "FATAL INITIALIZATION ERROR: PINECONE_KEY environment variable not set." ] |}.
Proof. intros [Hkey|Hkey]; run_initialize; rewrite Hkey; reflexivity. Qed.

Lemma initialize_without_key_witness :
  boot Stub.empty_key_env =
  {| globals := {| pc := PyNone; index := Unbound; embedding_model := PyNone |};
     trace := [ EnvironGet "PINECONE_KEY";
                Stdout "FATAL INITIALIZATION ERROR: PINECONE_KEY environment variable not set." ] |}.
Proof. apply (initialize_without_key Stub.empty_key_env). right. reflexivity. Defined.

(** X4.  When the client or the index cannot be obtained, the
    initialisation stops there: the model is never loaded, the exception's
    message is logged once, [pc] and [embedding_model] are [None] and
    [index] was never assigned. *)
Theorem initialize_stops_before_model `{PyFloat} (env : Environment)
    (key : string) (e : exn) :
  os_environ env !! "PINECONE_KEY" = Some key → key ≠ "" →
  (new_Pinecone env key = Raise e
   ∨ ∃ p, new_Pinecone env key = Return p ∧ pc_Index p "kelleher-hvac-parts-free" = Raise e) →
  globals (boot env) = {| pc := PyNone; index := Unbound; embedding_model := PyNone |}
  ∧ (∀ name, LoadModel name ∉ trace (boot env))
  ∧ last (trace (boot env)) = Some (Stdout ("FATAL INITIALIZATION ERROR: " +:+ exn_str e)).
Proof.
  intros Hkey Hne Hfail. run_initialize. rewrite Hkey; cbn.
  destruct (String.eqb_spec key "") as [|_]; [done|]. cbn.
  destruct Hfail as [Hp|(p & Hp & Hix)]; rewrite Hp; cbn.
  - split; [reflexivity|]. split; [|reflexivity].
    intros name Hin. repeat (apply elem_of_cons in Hin as [Hin|Hin]; [discriminate|]).
    by apply elem_of_nil in Hin.
  - unfold INDEX_NAME. rewrite Hix; cbn.
    split; [reflexivity|]. split; [|reflexivity].
    intros name Hin. repeat (apply elem_of_cons in Hin as [Hin|Hin]; [discriminate|]).
    by apply elem_of_nil in Hin.
Qed.

Lemma initialize_stops_before_model_witness :
  globals (boot Stub.no_index_env)
  = {| pc := PyNone; index := Unbound; embedding_model := PyNone |}
  ∧ (∀ name, LoadModel name ∉ trace (boot Stub.no_index_env))
  ∧ last (trace (boot Stub.no_index_env))
    = Some (Stdout "FATAL INITIALIZATION ERROR: index not found").
Proof.
  apply (initialize_stops_before_model Stub.no_index_env "secret"
           (Exn "NotFoundException" "index not found") eq_refl ltac:(discriminate)).
  right. eexists. split; reflexivity.
Defined.

(** X5.  When the client and the index are obtained and loading the model
    raises, the handler of the exception resets [pc] and [embedding_model]
    and leaves [index] holding the opened index; the exception's message is
    logged. *)
Theorem initialize_model_failure `{PyFloat} (env : Environment) (key : string)
    (p : Pinecone) (ix : Index) (e : exn) :
  os_environ env !! "PINECONE_KEY" = Some key → key ≠ "" →
  new_Pinecone env key = Return p →
  pc_Index p "kelleher-hvac-parts-free" = Return ix →
  new_SentenceTransformer env "all-MiniLM-L6-v2" = Raise e →
  boot env =
  {| globals := {| pc := PyNone; index := Obj ix; embedding_model := PyNone |};
     trace := [ EnvironGet "PINECONE_KEY"; NewPinecone key;
                OpenIndex "kelleher-hvac-parts-free"; LoadModel "all-MiniLM-L6-v2";
                Stdout ("FATAL INITIALIZATION ERROR: " +:+ exn_str e) ] |}.
Proof.
  intros Hkey Hne Hp Hix Hm. run_initialize.
  rewrite Hkey; cbn.
  destruct (String.eqb_spec key "") as [|_]; [done|]. cbn.
  rewrite Hp; cbn. unfold INDEX_NAME. rewrite Hix; cbn.
  unfold EMBEDDING_MODEL_NAME. rewrite Hm; cbn. reflexivity.
Qed.

Lemma initialize_model_failure_witness :
  boot Stub.no_model_env =
  {| globals := {| pc := PyNone; index := Obj Stub.stub_index; embedding_model := PyNone |};
     trace := [ EnvironGet "PINECONE_KEY"; NewPinecone "secret";
                OpenIndex "kelleher-hvac-parts-free"; LoadModel "all-MiniLM-L6-v2";
                Stdout "FATAL INITIALIZATION ERROR: model not found" ] |}.
Proof.
  apply (initialize_model_failure Stub.no_model_env "secret" Stub.stub_pc
           Stub.stub_index (Exn "OSError" "model not found")
           eq_refl ltac:(discriminate) eq_refl eq_refl eq_refl).
Defined.

(** ** Further properties of the matcher (lines 37-65) *)

Section MatcherPastGuard.
Context `{PyFloat}.

(** the matcher once its guard has passed, whatever [index] is bound to *)
Lemma find_matching_parts_past_guard (technician_description top_k : json)
    (w : World) p m :
  pc (globals w) = Obj p → embedding_model (globals w) = Obj m →
  find_matching_parts technician_description top_k w =
  match encode m technician_description with
  | Raise e => (Raise e, extend w [Encode technician_description])
  | Return v =>
      match index (globals w) with
      | Unbound => (Raise (NameError "index"), extend w [Encode technician_description])
      | PyNone =>
          (Raise (AttributeError "NoneType" "query"),
           extend w [Encode technician_description])
      | Obj ix =>
          let w' := extend w [Encode technician_description; Query v top_k true] in
          match query ix v top_k true with
          | Raise e => (Raise e, w')
          | Return query_results =>
              match process_matches (matches query_results) [] with
              | Raise e => (Raise e, w')
              | Return matches => (Return ("Success", matches), w')
              end
          end
      end
  end.
Proof.
  intros Hp Hm. unfold find_matching_parts. fold guard.
  unfold mbind at 1. unfold M_bind at 1. unfold bind at 1.
  rewrite (guard_passes w p m Hp Hm).
  unfold mbind, M_bind, bind, load, attribute, external, lift, mret, M_ret, ret, raise.
  rewrite Hm; cbn. fold (extend w [Encode technician_description]).
  destruct (encode m technician_description) as [v|e]; [|reflexivity].
  destruct (index (globals w)) as [| |ix]; cbn; try reflexivity.
  rewrite <- app_assoc; cbn.
  fold (extend w [Encode technician_description; Query v top_k true]).
  destruct (query ix v top_k true) as [qr|e]; [|reflexivity].
  destruct (process_matches (matches qr) []); reflexivity.
Qed.

(** the loop either converts every match or stops with the KeyError *)
Lemma process_matches_cases (ms : list ScoredVector) (acc : list json) :
  (∃ rs, process_matches ms acc = Return (acc ++ rs)
         ∧ Forall2 (λ mt r, ∃ d, match_metadata mt !! "description" = Some d
                                 ∧ r = match_dict mt d) ms rs)
  ∨ (process_matches ms acc = Raise (KeyError "description")
     ∧ Exists (λ mt, match_metadata mt !! "description" = None) ms).
Proof.
  revert acc. induction ms as [|mt ms IH]; intros acc.
  - left. exists []. split; [by rewrite app_nil_r|constructor].
  - cbn. unfold match_result.
    destruct (match_metadata mt !! "description") as [d|] eqn:Hd.
    + fold (match_dict mt d).
      destruct (IH (acc ++ [match_dict mt d])) as [(rs & Hrs & Hall)|[Hr Hex]].
      * left. exists (match_dict mt d :: rs). split.
        -- rewrite Hrs, <- app_assoc. reflexivity.
        -- constructor; eauto.
      * right. split; [done|]. by apply Exists_cons_tl.
    + right. split; [reflexivity|]. by apply Exists_cons_hd.
Qed.

End MatcherPastGuard.

(** X6.  When the embedding raises, [find_matching_parts] raises the same
    exception and the index is never queried: the only call traced is the
    one to the model. *)
Theorem find_matching_parts_encode_failure `{PyFloat}
    (technician_description top_k : json) (w : World)
    (p : Pinecone) (m : SentenceTransformer) (e : exn) :
  pc (globals w) = Obj p → embedding_model (globals w) = Obj m →
  encode m technician_description = Raise e →
  find_matching_parts technician_description top_k w
  = (Raise e, extend w [Encode technician_description]).
Proof.
  intros Hp Hm Henc.
  rewrite (find_matching_parts_past_guard _ _ w p m Hp Hm), Henc. reflexivity.
Qed.

Lemma find_matching_parts_encode_failure_witness :
  find_matching_parts (JInt 7) (JInt 2) Stub.healthy_world
  = (Raise (TypeError "expected a string"), extend Stub.healthy_world [Encode (JInt 7)]).
Proof.
  apply (find_matching_parts_encode_failure (JInt 7) (JInt 2) Stub.healthy_world
           Stub.stub_pc Stub.stub_model); reflexivity.
Defined.

(** X7.  One match without a 'description' in its metadata fails the whole
    request: after the model and the index have both answered, the handler
    responds 500 with the KeyError's text, and no partial list of matches
    is returned. *)
Theorem query_part_finder_match_without_description `{PyFloat}
    (request : Request) (w : World) (d : gmap string json) (description : json)
    (p : Pinecone) (ix : Index) (m : SentenceTransformer)
    (v : list float) (query_results : QueryResponse) :
  globals w = {| pc := Obj p; index := Obj ix; embedding_model := Obj m |} →
  body request = Some (JDict d) →
  d !! "description" = Some description →
  encode m description = Return v →
  query ix v (default (JInt 3) (d !! "top_k")) true = Return query_results →
  Exists (λ mt, match_metadata mt !! "description" = None) (matches query_results) →
  query_part_finder request w
  = (Return (BodyStatus
       (jsonify (JDict {[ "error" :=
          JStr "An unexpected search error occurred: 'description'" ]}))
       500),
     extend w [GetJson; Encode description;
               Query v (default (JInt 3) (d !! "top_k")) true]).
Proof.
  intros Hs Hb Hd Henc Hq Hex.
  rewrite (query_part_finder_well_formed request w p m d description)
    by (done || by rewrite Hs).
  rewrite (find_matching_parts_healthy _ _ (extend w [GetJson]) p ix m)
    by (cbn; by rewrite Hs).
  rewrite Henc. cbn zeta. rewrite Hq, extend_extend.
  rewrite (process_matches_raises _ [] Hex). reflexivity.
Qed.

Lemma query_part_finder_match_without_description_witness :
  query_part_finder Stub.blower_request Stub.bare_world
  = (Return (BodyStatus
       (jsonify (JDict {[ "error" :=
          JStr "An unexpected search error occurred: 'description'" ]}))
       500),
     extend Stub.bare_world
       [GetJson; Encode (JStr "blower motor");
        Query [1 # 10; 2 # 10; 3 # 10] (JInt 2) true]).
Proof.
  apply (query_part_finder_match_without_description Stub.blower_request
           Stub.bare_world {[ "description" := JStr "blower motor"; "top_k" := JInt 2 ]}
           (JStr "blower motor") Stub.stub_pc Stub.bare_index Stub.stub_model
           [1 # 10; 2 # 10; 3 # 10] _ eq_refl eq_refl eq_refl eq_refl eq_refl).
  apply Exists_cons_tl, Exists_cons_hd. reflexivity.
Defined.

(** X8.  For a healthy state, a body that is an object with a 'description',
    and collaborators that answer with described matches, the response is
    200 and its body echoes the request's description under
    'query_description', carries the status "Success", and lists under
    'matches' one dictionary per match of the index, in the index's
    order. *)
Theorem query_part_finder_success `{PyFloat}
    (request : Request) (w : World) (d : gmap string json) (description : json)
    (p : Pinecone) (ix : Index) (m : SentenceTransformer)
    (v : list float) (query_results : QueryResponse) :
  globals w = {| pc := Obj p; index := Obj ix; embedding_model := Obj m |} →
  body request = Some (JDict d) →
  d !! "description" = Some description →
  encode m description = Return v →
  query ix v (default (JInt 3) (d !! "top_k")) true = Return query_results →
  Forall (λ mt, is_Some (match_metadata mt !! "description")) (matches query_results) →
  ∃ results : list json,
    query_part_finder request w
    = (Return (BodyStatus
         (jsonify (JDict {[ "query_description" := description;
                            "status" := JStr "Success";
                            "matches" := JList results ]}))
         200),
       extend w [GetJson; Encode description;
                 Query v (default (JInt 3) (d !! "top_k")) true])
    ∧ Forall2 (λ mt r, ∃ dsc, match_metadata mt !! "description" = Some dsc
                              ∧ r = match_dict mt dsc)
        (matches query_results) results.
Proof.
  intros Hs Hb Hd Henc Hq Hall.
  destruct (process_matches_cases (matches query_results) [])
    as [(results & Hres & Hshape)|[_ Hex]].
  - exists results. split; [|done].
    rewrite (query_part_finder_well_formed request w p m d description)
      by (done || by rewrite Hs).
    rewrite (find_matching_parts_healthy _ _ (extend w [GetJson]) p ix m)
      by (cbn; by rewrite Hs).
    rewrite Henc. cbn zeta. rewrite Hq, extend_extend, Hres. reflexivity.
  - exfalso. rewrite Forall_forall in Hall. rewrite Exists_exists in Hex.
    destruct Hex as (mt & Hin & Hnone). destruct (Hall mt Hin) as [dsc Hdsc].
    congruence.
Qed.

Lemma query_part_finder_success_witness :
  ∃ results : list json,
    query_part_finder Stub.blower_request Stub.healthy_world
    = (Return (BodyStatus
         (jsonify (JDict {[ "query_description" := JStr "blower motor";
                            "status" := JStr "Success";
                            "matches" := JList results ]}))
         200),
       extend Stub.healthy_world
         [GetJson; Encode (JStr "blower motor");
          Query [1 # 10; 2 # 10; 3 # 10] (JInt 2) true])
    ∧ length results = 2%nat.
Proof.
  destruct (query_part_finder_success Stub.blower_request Stub.healthy_world
              {[ "description" := JStr "blower motor"; "top_k" := JInt 2 ]}
              (JStr "blower motor") Stub.stub_pc Stub.stub_index Stub.stub_model
              [1 # 10; 2 # 10; 3 # 10] {| matches := take 2 Stub.catalogue |}
              eq_refl eq_refl eq_refl eq_refl eq_refl)
    as (results & Hrun & Hshape).
  - repeat constructor; eexists; reflexivity.
  - exists results. split; [exact Hrun|].
    symmetry. apply (Forall2_length _ _ _ Hshape).
Defined.

(** ** Further properties of the handler (lines 69-106) *)

Section Validation.
Context `{PyFloat}.

Lemma guard_world (w w0 : World) (o : outcome bool) : guard w = (o, w0) → w0 = w.
Proof.
  unfold guard, py_or, mbind, M_bind, bind, load, mret, M_ret, ret.
  destruct (embedding_model (globals w)); cbn; try congruence.
  destruct (pc (globals w)); cbn; congruence.
Qed.

Lemma empty_lookup (d : gmap string json) (k : string) : size d = 0%nat → d !! k = None.
Proof. intros Hsz. apply map_size_empty_iff in Hsz as ->. apply lookup_empty. Qed.

(** past the guard, the body alone decides between the three ways on *)
Lemma query_part_finder_by_body (request : Request) (w : World) p m :
  pc (globals w) = Obj p → embedding_model (globals w) = Obj m →
  let b := default JNull (body request) in
  (lacks_description b = true ∧ raises_on_body b = false
   ∧ query_part_finder request w
     = (Return (BodyStatus (jsonify missing_description_error) 400), extend w [GetJson]))
  ∨ (lacks_description b = false ∧ raises_on_body b = true
     ∧ ∃ msg, query_part_finder request w = (Raise (TypeError msg), extend w [GetJson]))
  ∨ (lacks_description b = false ∧ raises_on_body b = false
     ∧ ∃ d x, b = JDict d ∧ d !! "description" = Some x
         ∧ query_part_finder request w =
           match find_matching_parts x (default (JInt 3) (d !! "top_k"))
                   (extend w [GetJson]) with
           | (Return (status, matches), w2) =>
               (Return (BodyStatus
                  (jsonify (JDict {[ "query_description" := x;
                                     "status" := JStr status;
                                     "matches" := JList matches ]}))
                  200), w2)
           | (Raise e, w2) => (Return (BodyStatus (jsonify (search_error e)) 500), w2)
           end).
Proof.
  intros Hp Hm b.
  rewrite (query_part_finder_parsed request w p m Hp Hm). cbn zeta. fold b.
  unfold missing_description_error.
  destruct b as [|x|z|x|s|l|d] eqn:Hb.
  - left. done.
  - destruct x; [right; left|left]; cbn; eauto.
  - unfold lacks_description, raises_on_body, py_truth.
    destruct (Z.eqb z 0); [left|right; left]; cbn; eauto.
  - unfold lacks_description, raises_on_body, py_truth.
    destruct (float_truth x); [right; left|left]; cbn; eauto.
  - unfold lacks_description, raises_on_body, py_truth, py_contains, py_getitem.
    destruct s as [|a s]; [left; done|].
    change (negb (String a s =? "")%string) with true. cbn [negb andb].
    destruct (str_contains "description" (String a s)); [right; left|left]; cbn; eauto.
  - unfold lacks_description, raises_on_body, py_truth, py_contains, py_getitem.
    destruct l as [|x l]; [left; done|].
    change (negb (length (x :: l) =? 0)%nat) with true. cbn [negb andb].
    destruct (existsb (py_eq_str "description") (x :: l)); [right; left|left]; cbn; eauto.
  - unfold lacks_description, raises_on_body, py_truth, py_contains, py_getitem, py_get.
    rewrite andb_false_r.
    destruct (Nat.eqb_spec (size d) 0) as [Hsz|Hsz]; cbn [negb].
    + left. by rewrite (empty_lookup d "description" Hsz).
    + destruct (d !! "description") as [x|] eqn:Hd.
      * right; right. rewrite bool_decide_eq_true_2 by eauto.
        split; [done|]. split; [done|]. exists d, x. done.
      * left. rewrite bool_decide_eq_false_2 by (by intros [? [=]]). done.
Qed.

End Validation.

(** X9.  Past the guard, the handler answers 400 exactly for the bodies in
    which no 'description' is found: an absent or null body, false, zero,
    an object without the key, a list without the string, a string without
    the substring.  Only the parse is traced: neither the model nor the
    index is called. *)
Theorem query_part_finder_400_iff `{PyFloat} (request : Request) (w : World)
    (p : Pinecone) (m : SentenceTransformer) :
  pc (globals w) = Obj p → embedding_model (globals w) = Obj m →
  (lacks_description (default JNull (body request)) = true →
   query_part_finder request w
   = (Return (BodyStatus
        (jsonify (JDict {[ "error" := JStr "Missing 'description' in request body." ]}))
        400), extend w [GetJson]))
  ∧ (∀ v w', query_part_finder request w = (Return v, w') → http_status v = 400 →
       lacks_description (default JNull (body request)) = true).
Proof.
  intros Hp Hm.
  destruct (query_part_finder_by_body request w p m Hp Hm)
    as [(Hl & _ & Hrun)|[(Hl & _ & msg & Hrun)|(Hl & _ & d & x & _ & _ & Hrun)]].
  - split; [by intros _|done].
  - split; [congruence|]. intros v w'. by rewrite Hrun.
  - split; [congruence|]. intros v w'. rewrite Hrun.
    destruct (find_matching_parts _ _ _) as [[[status ms]|e] w2];
      intros [= <- _]; discriminate.
Qed.

Lemma query_part_finder_400_iff_witness :
  query_part_finder Stub.string_request Stub.healthy_world
  = (Return (BodyStatus
       (jsonify (JDict {[ "error" := JStr "Missing 'description' in request body." ]}))
       400), extend Stub.healthy_world [GetJson]).
Proof.
  apply (proj1 (query_part_finder_400_iff Stub.string_request Stub.healthy_world
                  Stub.stub_pc Stub.stub_model eq_refl eq_refl)).
  reflexivity.
Defined.

(** X10.  The validation tests the presence of the key only: with a body
    that is an object holding 'description', whatever the value (null, the
    empty string, a number), the request is never answered 400; the value
    is handed to the model as it is, and the handler returns 200 or 500. *)
Theorem query_part_finder_any_description `{PyFloat} (request : Request) (w : World)
    (p : Pinecone) (m : SentenceTransformer) (d : gmap string json) (x : json) :
  pc (globals w) = Obj p → embedding_model (globals w) = Obj m →
  body request = Some (JDict d) → d !! "description" = Some x →
  ∃ v w' evs,
    query_part_finder request w = (Return v, w')
    ∧ (http_status v = 200 ∨ http_status v = 500)
    ∧ trace w' = trace w ++ GetJson :: Encode x :: evs.
Proof.
  intros Hp Hm Hb Hd.
  rewrite (query_part_finder_well_formed request w p m d x Hp Hm Hb Hd).
  rewrite (find_matching_parts_past_guard _ _ (extend w [GetJson]) p m) by done.
  destruct (encode m x) as [v|e].
  - cbn [extend globals]. destruct (index (globals w)) as [| |ix].
    + eexists _, _, []. split; [reflexivity|]. split; [by right|].
      cbn. by rewrite <- app_assoc.
    + eexists _, _, []. split; [reflexivity|]. split; [by right|].
      cbn. by rewrite <- app_assoc.
    + cbn zeta. destruct (query ix v _ true) as [qr|e].
      * destruct (process_matches _ _).
        -- eexists _, _, [_]. split; [reflexivity|]. split; [by left|].
           cbn. by rewrite <- app_assoc.
        -- eexists _, _, [_]. split; [reflexivity|]. split; [by right|].
           cbn. by rewrite <- app_assoc.
      * eexists _, _, [_]. split; [reflexivity|]. split; [by right|].
        cbn. by rewrite <- app_assoc.
  - eexists _, _, []. split; [reflexivity|]. split; [by right|].
    cbn. by rewrite <- app_assoc.
Qed.

Lemma query_part_finder_any_description_witness :
  ∃ v w' evs,
    query_part_finder Stub.null_description_request Stub.healthy_world = (Return v, w')
    ∧ (http_status v = 200 ∨ http_status v = 500)
    ∧ trace w' = trace Stub.healthy_world ++ GetJson :: Encode JNull :: evs.
Proof.
  apply (query_part_finder_any_description Stub.null_description_request
           Stub.healthy_world Stub.stub_pc Stub.stub_model
           {[ "description" := JNull ]} JNull eq_refl eq_refl eq_refl eq_refl).
Defined.

(** X11.  In the running process the handler raises exactly when the state
    is healthy and the body is true in a boolean context without being an
    object in which the key can be looked up: a number, [true], a list
    holding the string 'description', a string containing it.  What it
    raises is a TypeError, right after the parse. *)
Theorem query_part_finder_raises_iff `{PyFloat}
    (env : Environment) (request : Request) (w : World) :
  after_boot env w →
  ((∃ e w', query_part_finder request w = (Raise e, w'))
   ↔ healthy (globals w) = true
     ∧ raises_on_body (default JNull (body request)) = true)
  ∧ (∀ e w', query_part_finder request w = (Raise e, w') →
       exn_class e = "TypeError" ∧ w' = extend w [GetJson]).
Proof.
  intros Hboot.
  destruct (degraded (globals w)) eqn:Hdeg.
  - destruct (degraded_after_boot env w Hboot Hdeg) as [_ Hm].
    rewrite (query_part_finder_degraded request w Hm).
    apply negb_true_iff in Hdeg. split; [split|].
    + intros (e & w' & [=]).
    + intros [Hh _]. congruence.
    + intros e w' [=].
  - apply negb_false_iff in Hdeg.
    destruct (healthy_inv _ Hdeg) as (p & ix & m & Hp & _ & Hm).
    destruct (query_part_finder_by_body request w p m Hp Hm)
      as [(_ & Hr & Hrun)|[(_ & Hr & msg & Hrun)|(_ & Hr & d & x & _ & _ & Hrun)]];
      rewrite Hrun.
    + split; [split|].
      * intros (e & w' & [=]).
      * intros [_ Hr']. congruence.
      * intros e w' [=].
    + split; [split|]; eauto.
      intros e w' [= <- <-]. done.
    + destruct (find_matching_parts _ _ _) as [[[status ms]|e0] w2].
      * split; [split|].
        -- intros (e & w' & [=]).
        -- intros [_ Hr']. congruence.
        -- intros e w' [=].
      * split; [split|].
        -- intros (e & w' & [=]).
        -- intros [_ Hr']. congruence.
        -- intros e w' [=].
Qed.

Lemma query_part_finder_raises_iff_witness :
  ∃ e w', query_part_finder Stub.list_request (boot Stub.good_env) = (Raise e, w')
          ∧ exn_class e = "TypeError".
Proof.
  destruct (query_part_finder_raises_iff Stub.good_env Stub.list_request
              (boot Stub.good_env) eq_refl) as [Hiff Hclass].
  destruct (proj2 Hiff (conj eq_refl eq_refl)) as (e & w' & Hrun).
  exists e, w'. split; [exact Hrun|]. exact (proj1 (Hclass e w' Hrun)).
Defined.

(** X12.  Whenever the handler returns, the status is 200, 400 or 500, and
    the body has one of two shapes: with 200 it holds a 'matches' list and
    no 'error'; with 400 or 500 it holds an 'error' string and no
    'matches'. *)
Theorem query_part_finder_response_shape `{PyFloat}
    (request : Request) (w w' : World) (v : view_result) :
  query_part_finder request w = (Return v, w') →
  (http_status v = 200
   ∧ (∃ l, field "matches" (http_body v) = Some (JList l))
   ∧ field "error" (http_body v) = None)
  ∨ ((http_status v = 400 ∨ http_status v = 500)
     ∧ (∃ msg, field "error" (http_body v) = Some (JStr msg))
     ∧ field "matches" (http_body v) = None).
Proof.
  intros Hrun.
  destruct (query_part_finder_returns_inv request w w' v Hrun)
    as [->|[->|[(d & ms & ->)|[e ->]]]].
  - right. split; [by right|]. split; [eexists|]; reflexivity.
  - right. split; [by left|]. split; [eexists|]; reflexivity.
  - left. split; [reflexivity|]. split; [eexists|]; reflexivity.
  - right. split; [by right|]. split; [eexists|]; reflexivity.
Qed.

Lemma query_part_finder_response_shape_witness :
  ∃ v w', query_part_finder Stub.empty_request Stub.healthy_world = (Return v, w')
          ∧ http_status v = 400
          ∧ (∃ msg, field "error" (http_body v) = Some (JStr msg))
          ∧ field "matches" (http_body v) = None.
Proof.
  eexists _, _. split; [reflexivity|].
  destruct (query_part_finder_response_shape Stub.empty_request Stub.healthy_world
              _ _ eq_refl) as [(Hst & _)|(_ & Herr & Hm)].
  - discriminate Hst.
  - split; [reflexivity|]. split; [exact Herr|exact Hm].
Defined.

(** X13.  Whatever the state and the request, and whether the handler
    returns or raises, one request adds to the trace at most: the parse of
    the body, then one call to the model, then one query of the index with
    metadata requested.  Nothing is called twice, the index is never
    queried without a preceding embedding, and no client, index or model is
    constructed while a request is handled. *)
Theorem query_part_finder_calls `{PyFloat} (request : Request) (w : World) :
  ∃ evs,
    trace (snd (query_part_finder request w)) = trace w ++ evs
    ∧ (evs = []
       ∨ evs = [GetJson]
       ∨ (∃ x, evs = [GetJson; Encode x])
       ∨ (∃ x v k, evs = [GetJson; Encode x; Query v k true])).
Proof.
  destruct (guard w) as [[[|]|e] w0] eqn:Hg.
  - exists []. split; [|by left].
    pose proof (guard_world _ _ _ Hg) as ->.
    unfold query_part_finder. fold guard.
    unfold mbind at 1. unfold M_bind, bind. rewrite Hg. cbn.
    by rewrite app_nil_r.
  - apply guard_false_inv in Hg as (-> & [p Hp] & [m Hm]).
    destruct (query_part_finder_by_body request w p m Hp Hm)
      as [(_ & _ & Hrun)|[(_ & _ & msg & Hrun)|(_ & _ & d & x & _ & _ & Hrun)]];
      rewrite Hrun.
    + exists [GetJson]. split; [reflexivity|]. right. by left.
    + exists [GetJson]. split; [reflexivity|]. right. by left.
    + rewrite (find_matching_parts_past_guard _ _ (extend w [GetJson]) p m) by done.
      destruct (encode m x) as [v|e].
      * cbn [extend globals]. destruct (index (globals w)) as [| |ix].
        -- exists [GetJson; Encode x]. split; [cbn; by rewrite <- app_assoc|].
           right; right; left. eauto.
        -- exists [GetJson; Encode x]. split; [cbn; by rewrite <- app_assoc|].
           right; right; left. eauto.
        -- cbn zeta.
           exists [GetJson; Encode x; Query v (default (JInt 3) (d !! "top_k")) true].
           split; [|right; right; right; eauto].
           destruct (query ix v _ true) as [qr|e];
             [destruct (process_matches _ _)|]; cbn; by rewrite <- app_assoc.
      * exists [GetJson; Encode x]. split; [cbn; by rewrite <- app_assoc|].
        right; right; left. eauto.
  - exists []. split; [|by left].
    pose proof (guard_world _ _ _ Hg) as ->.
    unfold query_part_finder. fold guard.
    unfold mbind at 1. unfold M_bind, bind. rewrite Hg. cbn.
    by rewrite app_nil_r.
Qed.

(** X14.  Handling a request never assigns [pc], [index] or
    [embedding_model]: after [query_part_finder], and after
    [find_matching_parts], the three globals are what they were, also when
    the call raises.  The process stays in the state the initialisation
    left. *)
Theorem request_handling_keeps_globals `{PyFloat}
    (request : Request) (technician_description top_k : json) (w : World) :
  globals (snd (query_part_finder request w)) = globals w
  ∧ globals (snd (find_matching_parts technician_description top_k w)) = globals w.
Proof.
  split; [apply query_part_finder_keeps_globals|apply find_matching_parts_globals].
Qed.



(** X16.  Nothing is retried: once the initialisation has left the state
    degraded, every request of any sequence of requests is answered with
    the 500 initialisation-failure response, and the world after the whole
    sequence is the world before it. *)
Theorem degraded_forever `{PyFloat}
    (env : Environment) (w : World) (requests : list Request) :
  after_boot env w → degraded (globals w) = true →
  fold_left (λ w r, snd (query_part_finder r w)) requests w = w
  ∧ Forall (λ r, fst (query_part_finder r w)
                 = Return (BodyStatus
                     (jsonify (JDict {[ "error" :=
                        JStr "Service initialization failed. Check server logs." ]}))
                     500))
      requests.
Proof.
  intros Hboot Hdeg.
  destruct (degraded_after_boot env w Hboot Hdeg) as [_ Hm].
  induction requests as [|r rs [IHw IHall]]; [by split|].
  split.
  - cbn. by rewrite (query_part_finder_degraded r w Hm).
  - constructor; [|done]. by rewrite (query_part_finder_degraded r w Hm).
Qed.

Lemma degraded_forever_witness :
  fold_left (λ w r, snd (query_part_finder r w))
    [Stub.blower_request; Stub.empty_request; Stub.list_request]
    (boot Stub.no_key_env)
  = boot Stub.no_key_env.
Proof.
  apply (degraded_forever Stub.no_key_env (boot Stub.no_key_env)
           [Stub.blower_request; Stub.empty_request; Stub.list_request]);
    reflexivity.
Defined.
